(** * dacite (GeoFlow fork): the conversion engine of [dacite/core.py] and the
    path navigator of [dacite/dataclasses_helpers.py], as a shallow embedding.

    Python objects are modelled by the inductive types [value] and [exn], type
    hints by [ty], raising and returning by the [result] monad.  The recursion
    of [_build_value] through unions, collections and nested data classes is
    not bounded by the size of its arguments (a default value may be fed back
    to the builder), so the builder takes a fuel argument; every function it
    calls is written over the recursive builder it receives. *)

From stdpp Require Import base option list strings gmap.
From Stdlib Require Import ZArith Ascii.

Local Open Scope string_scope.
Local Open Scope list_scope.
Set Warnings "-register-all".

(** ** Classes and type hints *)

(** Runtime classes: the built-ins that the engine tests for, the two abstract
    base classes of [collections.abc] it names, exception classes and
    user-defined classes (data classes among them), by name. *)
Inductive cls : Type :=
| CObject
| CNoneType
| CBool
| CInt
| CFloat
| CStr
| CList
| CTuple
| CSet
| CDict
| CCollection
| CMapping
| CExc (name : string)
| CUser (name : string).

#[global] Instance cls_eq_dec : EqDecision cls.
Proof. solve_decision. Defined.

(** Type hints, after resolution by [get_type_hints].
    [TGeneric origin args] is a parameterised generic alias ([List[int]],
    [list[int]], [Dict[str, int]], [Tuple[int, ...]]) with its [__origin__]
    and [__args__]; [TUnion args] is [Union[...]] ([Optional[T]] is
    [TUnion [T; TClass CNoneType]]), whose members Python keeps flattened and
    pairwise distinct; [TEllipsis] is the [...] of a variadic tuple;
    [TNoneValue] is the object [None] standing where a type is expected, which
    is what [zip_longest] pads the type list with. *)
Inductive ty : Type :=
| TAny
| TClass (c : cls)
| TUnion (args : list ty)
| TGeneric (origin : cls) (args : list ty)
| TInitVar (t : ty)
| TEllipsis
| TNoneValue.

Definition NoneType : ty := TClass CNoneType.

(** [Optional[t]] for a [t] that is neither a union nor the null type:
    Python flattens [Optional[Union[a, b]]] into the union of [a], [b] and
    the null type, and gives the null type for [Optional[None]]. *)
Definition Optional (t : ty) : ty := TUnion [t; NoneType].

Definition List (t : ty) : ty := TGeneric CList [t].
Definition Set_ (t : ty) : ty := TGeneric CSet [t].
Definition Dict (k v : ty) : ty := TGeneric CDict [k; v].
Definition Tuple (ts : list ty) : ty := TGeneric CTuple ts.

(** A registered path-spec of [Config.paths]: one dotted path, a list of
    candidate dotted paths, or some other object. *)
Inductive path_spec : Type :=
| PathStr (path : string)
| PathList (paths : list string)
| PathOther.

(** ** Values and exceptions *)

(** Python values.  A [dict] has string keys and keeps insertion order; a
    [float] is held by its IEEE-754 bit pattern; [VInst c attrs] is an
    instance of the user class [c] with its attributes; an exception object
    can be an ordinary value (a default that is an error value). *)
Inductive value : Type :=
| VNone
| VBool (b : bool)
| VInt (n : Z)
| VFloat (bits : Z)
| VStr (s : string)
| VList (items : list value)
| VTuple (items : list value)
| VSet (items : list value)
| VDict (entries : list (string * value))
| VInst (c : string) (attrs : list (string * value))
| VExc (e : exn)
with exn : Type :=
| KeyError (arg : option string)
| IndexError
| ValueError (msg : string)
| TypeError (msg : string)
| DefaultValueNotFoundError (context : option (path_spec * list (string * value)))
| WrongTypeError (field_path : option string) (field_type : ty) (v : value)
| UnionMatchError (field_path : option string) (field_type : ty) (v : value)
| StrictUnionMatchError (field_path : option string) (union_matches : list (ty * value))
| MissingValueError (field_path : option string)
| UnexpectedDataError (keys : gset string)
| ForwardReferenceError (msg : string)
| UserError (name : string).

Abbreviation dict := (list (string * value)).

(** The outcome of running a piece of the engine: a returned value, a raised
    exception, or no outcome within the fuel given. *)
Inductive result (A : Type) : Type :=
| Ok (a : A)
| Raise (e : exn)
| OutOfFuel.

Arguments Ok {A} a.
Arguments Raise {A} e.
Arguments OutOfFuel {A}.

(** Sequencing: an exception, or the lack of fuel, ends the computation. *)
Definition bind {A B} (m : result A) (k : A -> result B) : result B :=
  match m with
  | Ok a => k a
  | Raise e => Raise e
  | OutOfFuel => OutOfFuel
  end.

Notation "x <- m ;; k" := (bind m (fun x => k))
  (at level 62, m at next level, right associativity).

(** [try: m except Exception: handler]. *)
Definition try_except {A} (m : result A) (handler : exn -> result A) : result A :=
  match m with
  | Raise e => handler e
  | r => r
  end.

(** Runs [f] over a list from left to right and stops at the first outcome
    that is not a value: a generator consumed by a constructor. *)
Fixpoint mapM {A B} (f : A -> result B) (l : list A) : result (list B) :=
  match l with
  | [] => Ok []
  | x :: xs => y <- f x ;; ys <- mapM f xs ;; Ok (y :: ys)
  end.

(** ** Dictionaries with string keys *)

Fixpoint dict_get (k : string) (d : dict) : option value :=
  match d with
  | [] => None
  | (k', v) :: d' => if String.eqb k k' then Some v else dict_get k d'
  end.

Definition dict_has (k : string) (d : dict) : bool :=
  match dict_get k d with Some _ => true | None => false end.

(** [d[k] = v]: the entry is replaced in place, or added at the end. *)
Fixpoint dict_set (k : string) (v : value) (d : dict) : dict :=
  match d with
  | [] => [(k, v)]
  | (k', v') :: d' => if String.eqb k k' then (k, v) :: d' else (k', v') :: dict_set k v d'
  end.

Definition dict_keys (d : dict) : list string := d.*1.

(** ** Strings *)

(** [s.split(sep)] for a one-character separator: never empty, empty
    segments are kept. *)
Fixpoint split_on (sep : Ascii.ascii) (s : string) : list string :=
  match s with
  | EmptyString => [EmptyString]
  | String c s' =>
      if Ascii.eqb c sep then EmptyString :: split_on sep s'
      else match split_on sep s' with
           | [] => [String c EmptyString]
           | w :: ws => String c w :: ws
           end
  end.

Definition split_dot (path : string) : list string := split_on "."%char path.

(** ** The path navigator ([dacite/dataclasses_helpers.py]) *)

(** [isinstance(default, Exception)] followed by [raise default] or
    [return default]: the tail shared by [_get] and [_get_deep_value]. *)
Definition raise_or_return (default : value) : result value :=
  match default with
  | VExc e => Raise e
  | v => Ok v
  end.

(** The loop of [_has] and its final test, on the remaining path [p] and the
    current dictionary [d]. *)
Fixpoint _has (p : list string) (d : dict) : result bool :=
  match p with
  | [] => Raise IndexError
  | [k] => Ok (dict_has k d)
  | k :: p' =>
      match dict_get k d with
      | None => Ok false
      | Some (VDict d') => _has p' d'
      | Some _ => Ok false
      end
  end.

Definition has (path : string) (dicts : dict) : result bool :=
  _has (split_dot path) dicts.

(** The loop of [_get] and its final lookup. *)
Fixpoint _get (p : list string) (d : dict) (default : value) : result value :=
  match p with
  | [] => Raise IndexError
  | [k] =>
      match dict_get k d with
      | Some v => Ok v
      | None => raise_or_return default
      end
  | k :: p' =>
      match dict_get k d with
      | None => raise_or_return default
      | Some (VDict d') => _get p' d' default
      | Some _ => Raise (KeyError (Some ("element is not a dict: " +:+ k)))
      end
  end.

Definition get (path : string) (dicts : dict) (default : value) : result value :=
  _get (split_dot path) dicts default.

(** ** Ordered-candidate resolution ([_get_deep_value] of [dacite/core.py]) *)

(** The [for] loop over the candidate paths: the first [get] that returns
    ends the function, every exception is swallowed. *)
Fixpoint try_paths (data : dict) (paths : list string) : option (result value) :=
  match paths with
  | [] => None
  | path :: rest =>
      match get path data (VExc (KeyError None)) with
      | Raise _ => try_paths data rest
      | r => Some r
      end
  end.

(** [_get_deep_value]; the text of its [ValueError] leaves out the rendering
    of [data]. *)
Definition _get_deep_value (data : dict) (path_or_paths : path_spec) (default : value)
  : result value :=
  match path_or_paths with
  | PathStr path => get path data default
  | PathList paths =>
      match try_paths data paths with
      | Some r => r
      | None => raise_or_return default
      end
  | PathOther =>
      Raise (ValueError "Expected either a path string or a list of path strings")
  end.

(** ** Data classes and the configuration *)

(** A field as [get_fields] returns it, with the type hint that
    [get_type_hints] resolved for its name.  [f_default = None] and
    [f_default_factory = None] stand for [MISSING]; a factory is held by the
    outcome of calling it. *)
Record Field : Type := {
  f_name : string;
  f_type : ty;
  f_default : option value;
  f_default_factory : option (result value);
  f_init : bool
}.

Record Dataclass : Type := {
  dc_name : string;
  dc_fields : list Field;
  dc_frozen : bool
}.

(** [dacite/config.py].  [type_hooks] is the partial map from types to
    hooks, [paths] is keyed by the data class (its name) and then by the
    field name. *)
Record Config : Type := {
  type_hooks : ty -> option (value -> result value);
  cast : list cls;
  check_types : bool;
  strict : bool;
  strict_unions_match : bool;
  allow_superclasses : bool;
  follow_type_hints : bool;
  paths : gmap string (gmap string path_spec)
}.

(** What the engine takes from its surroundings: the class definitions of the
    caller, the Python built-ins whose results are not determined by this
    model of values, and [is_instance] of [dacite/types.py], which is not part
    of the sources at hand. *)
Record Runtime : Type := {
  (** all proper ancestors of a user class, [object] apart *)
  ancestors : string -> list cls;
  (** the data class of that name, when the class is one *)
  dataclasses : string -> option Dataclass;
  (** [dacite.types.is_instance(value, type_)] *)
  is_instance : value -> ty -> bool;
  (** [issubclass(t, c)] for a first argument that is not a plain class *)
  issubclass_hint : ty -> cls -> result bool;
  (** [type_(data)]: a type called on one argument *)
  call_type : ty -> value -> result value;
  int_of_str : string -> result value;
  float_of_str : string -> result value;
  (** [hash(v)] succeeds; [a == b] *)
  hashable : value -> bool;
  py_eq : value -> value -> bool;
  (** how [dict(iterable)] reads one element as a key and a value *)
  dict_item : value -> result (string * value);
  (** [str(generator)] *)
  generator_repr : string
}.

(** ** Classes of values, [issubclass] *)

Definition exn_class (e : exn) : string :=
  match e with
  | KeyError _ => "KeyError"
  | IndexError => "IndexError"
  | ValueError _ => "ValueError"
  | TypeError _ => "TypeError"
  | DefaultValueNotFoundError _ => "DefaultValueNotFoundError"
  | WrongTypeError _ _ _ => "WrongTypeError"
  | UnionMatchError _ _ _ => "UnionMatchError"
  | StrictUnionMatchError _ _ => "StrictUnionMatchError"
  | MissingValueError _ => "MissingValueError"
  | UnexpectedDataError _ => "UnexpectedDataError"
  | ForwardReferenceError _ => "ForwardReferenceError"
  | UserError name => name
  end.

(** [type(v)]. *)
Definition type_of (v : value) : cls :=
  match v with
  | VNone => CNoneType
  | VBool _ => CBool
  | VInt _ => CInt
  | VFloat _ => CFloat
  | VStr _ => CStr
  | VList _ => CList
  | VTuple _ => CTuple
  | VSet _ => CSet
  | VDict _ => CDict
  | VInst c _ => CUser c
  | VExc e => CExc (exn_class e)
  end.

Definition is_None (v : value) : bool :=
  match v with VNone => true | _ => false end.

(** [isinstance(v, Mapping)], [isinstance(v, tuple)] and
    [isinstance(v, Collection)] on the raw values of this model, which are
    the built-in ones: a [VInst] stands for an instance of a user class that
    derives from no container and from no string, and an instance of a class
    that does is outside the model. *)
Definition is_mapping (v : value) : bool :=
  match v with VDict _ => true | _ => false end.

Definition is_tuple (v : value) : bool :=
  match v with VTuple _ => true | _ => false end.

Definition is_collection (v : value) : bool :=
  match v with
  | VStr _ | VList _ | VTuple _ | VSet _ | VDict _ => true
  | _ => false
  end.

Section Classes.
Variable rt : Runtime.

Definition class_ancestors (c : cls) : list cls :=
  match c with
  | CBool => [CInt]
  | CStr | CList | CTuple | CSet => [CCollection]
  | CDict => [CMapping; CCollection]
  | CMapping => [CCollection]
  | CExc _ => [CExc "Exception"]
  | CUser name => ancestors rt name
  | _ => []
  end.

(** [issubclass(a, b)] on two classes. *)
Definition class_issubclass (a b : cls) : bool :=
  bool_decide (a = b) || bool_decide (b = CObject) || bool_decide (b ∈ class_ancestors a).

(** The built-in [issubclass(t, c)] on a type hint [t]. *)
Definition issubclass (t : ty) (c : cls) : result bool :=
  match t with
  | TClass a => Ok (class_issubclass a c)
  | _ => issubclass_hint rt t c
  end.

(** ** [dacite/types.py] *)

(** Modelled from the spec: [dacite/types.py] is not among the sources; a
    union is the [Union] variant of the type descriptor. *)
Definition is_union (type_ : ty) : bool :=
  match type_ with TUnion _ => true | _ => false end.

(** Modelled from the spec: [dacite/types.py] is not among the sources;
    [extract_generic] gives the members of a union and the element types of a
    generic collection, [defaults] when there are none. *)
Definition extract_generic (type_ : ty) (defaults : list ty) : list ty :=
  match type_ with
  | TUnion [] | TGeneric _ [] => defaults
  | TUnion args | TGeneric _ args => args
  | _ => defaults
  end.

Definition is_NoneType (t : ty) : bool :=
  match t with TClass CNoneType => true | _ => false end.

(** Modelled from the spec: [dacite/types.py] is not among the sources; an
    Optional is a union with the null type among its members. *)
Definition is_optional (type_ : ty) : bool :=
  is_union type_ && existsb is_NoneType (extract_generic type_ []).

(** Modelled from the spec: [dacite/types.py] is not among the sources; a
    generic collection is a parameterised alias whose origin is a
    [Collection]. *)
Definition is_generic_collection (type_ : ty) : bool :=
  match type_ with
  | TGeneric origin _ => class_issubclass origin CCollection
  | _ => false
  end.

(** Modelled from the spec: [dacite/types.py] is not among the sources; the
    runtime container class of a generic collection is its origin. *)
Definition extract_origin_collection (collection : ty) : ty :=
  match collection with
  | TGeneric origin _ => TClass origin
  | t => t
  end.

(** Modelled from the spec: [dacite/types.py] is not among the sources;
    [is_subclass(sub_type, base_type)] holds when [base_type] is an ancestor
    of, or equal to, the target type (its origin, for a generic collection),
    and is false where [issubclass] does not apply. *)
Definition is_subclass (sub_type : ty) (base_type : cls) : bool :=
  let sub_type :=
    if is_generic_collection sub_type then extract_origin_collection sub_type
    else sub_type in
  match issubclass sub_type base_type with
  | Ok b => b
  | _ => false
  end.

(** Modelled from the spec: [dacite/types.py] is not among the sources. *)
Definition is_init_var (type_ : ty) : bool :=
  match type_ with TInitVar _ => true | _ => false end.

(** Modelled from the spec: [dacite/types.py] is not among the sources. *)
Definition extract_init_var (type_ : ty) : ty :=
  match type_ with TInitVar t => t | _ => TAny end.

(** [isinstance(field_type, GenericAlias) or isinstance(field_type,
    _GenericAlias)]: true of [list[int]] and of [List[int]], and of every
    [Union[...]] and [Optional[...]] as well, since their class
    [typing._UnionGenericAlias] derives from [typing._GenericAlias] (CPython
    3.9 to 3.13); false of a plain class, of [Any] and of [InitVar[...]]. *)
Definition is_generic_alias (field_type : ty) : bool :=
  match field_type with
  | TUnion _ | TGeneric _ _ => true
  | _ => false
  end.

Definition is_dataclass (type_ : ty) : option Dataclass :=
  match type_ with
  | TClass (CUser name) => dataclasses rt name
  | _ => None
  end.

End Classes.

(** ** [dacite/exceptions.py] *)

(** Modelled from the spec: [dacite/exceptions.py] is not among the sources.
    The errors that carry a dotted field-location path ([DaciteFieldError])
    get the name of the enclosing field prepended as they unwind; the other
    exceptions are left as they are. *)
Definition prepend_path (parent : string) (field_path : option string) : option string :=
  match field_path with
  | None | Some "" => Some parent
  | Some p => Some (parent +:+ "." +:+ p)
  end.

(** Modelled from the spec: [DaciteFieldError.update_path] of
    [dacite/exceptions.py], which is not among the sources. *)
Definition update_path (parent : string) (e : exn) : exn :=
  match e with
  | WrongTypeError p t v => WrongTypeError (prepend_path parent p) t v
  | UnionMatchError p t v => UnionMatchError (prepend_path parent p) t v
  | StrictUnionMatchError p m => StrictUnionMatchError (prepend_path parent p) m
  | MissingValueError p => MissingValueError (prepend_path parent p)
  | e => e
  end.

(** Modelled from the spec: the errors of the single-rooted taxonomy
    ([DaciteError]). *)
Definition is_dacite_error (e : exn) : bool :=
  match e with
  | WrongTypeError _ _ _ | UnionMatchError _ _ _ | StrictUnionMatchError _ _
  | MissingValueError _ | UnexpectedDataError _ | ForwardReferenceError _ => true
  | _ => false
  end.

(** ** [get_default_value_for_field] ([dacite/dataclasses_helpers.py]) *)

Definition get_default_value_for_field (rt : Runtime) (field : Field) (type_ : ty)
  : result value :=
  match f_default field with
  | Some v => Ok v
  | None =>
      match f_default_factory field with
      | Some r => r
      | None =>
          if is_optional type_ then Ok VNone
          else Raise (DefaultValueNotFoundError None)
      end
  end.

(** ** The Instantiator: the call of the data class on [init_values] and [setattr] *)

(** [x is MISSING] *)
Definition is_MISSING {A} (o : option A) : bool :=
  match o with None => true | Some _ => false end.

(** The generated [__init__] of a data class without [__post_init__]: a
    required argument that is absent is a [TypeError] before anything runs;
    then every field gets, in order, its argument, its default or the result
    of its factory.  An [InitVar] pseudo-field leaves no attribute. *)
Definition missing_argument (kwargs : dict) (field : Field) : bool :=
  f_init field && negb (dict_has (f_name field) kwargs)
  && is_MISSING (f_default field) && is_MISSING (f_default_factory field).

Definition init_attr (kwargs : dict) (field : Field) : result (option (string * value)) :=
  let stored v :=
    if is_init_var (f_type field) then None else Some (f_name field, v) in
  match (if f_init field then dict_get (f_name field) kwargs else None) with
  | Some v => Ok (stored v)
  | None =>
      match f_default field, f_default_factory field with
      | Some v, _ => Ok (stored v)
      | None, Some r => v <- r ;; Ok (stored v)
      | None, None => Ok None
      end
  end.

Definition construct (data_class : Dataclass) (init_values : dict) : result value :=
  if existsb (missing_argument init_values) (dc_fields data_class)
  then Raise (TypeError "__init__() missing required argument")
  else
    attrs <- mapM (init_attr init_values) (dc_fields data_class) ;;
    Ok (VInst (dc_name data_class) (omap id attrs)).

(** [for key, value in post_init_values.items(): setattr(instance, key, value)] *)
Definition setattrs (instance : value) (post_init_values : dict) : value :=
  match instance with
  | VInst c attrs => VInst c (foldl (fun a kv => dict_set kv.1 kv.2 a) attrs post_init_values)
  | v => v
  end.

(** ** The engine ([dacite/core.py]) *)

(** [zip_longest(data, types)]: the shorter side is padded with [None]. *)
Fixpoint zip_longest (data : list value) (types : list ty) : list (value * ty) :=
  match data, types with
  | [], [] => []
  | item :: data', [] => (item, TNoneValue) :: zip_longest data' []
  | [], type_ :: types' => (VNone, type_) :: ((fun t => (VNone, t)) <$> types')
  | item :: data', type_ :: types' => (item, type_) :: zip_longest data' types'
  end.

Section Engine.
Variable rt : Runtime.
Variable config : Config.

(** The recursive call of [_build_value], with [config] fixed. *)
Variable build : ty -> value -> result value.

(** *** [_build_value_for_union] *)

(** [is_instance(value, inner_type) or config.allow_superclasses and
    issubclass(inner_type, type(value))] *)
Definition union_accepts (inner_type : ty) (v : value) : result bool :=
  if is_instance rt v inner_type then Ok true
  else if allow_superclasses config then issubclass rt inner_type (type_of v)
  else Ok false.

(** The [for] loop over the members: [inl v] when the loop returns [v], [inr
    union_matches] when it runs to its end.  [union_matches] is keyed by
    the member types, which are pairwise distinct, and kept in insertion
    order. *)
Fixpoint union_loop (types : list ty) (data : value) (union_matches : list (ty * value))
  : result (value + list (ty * value)) :=
  match types with
  | [] => Ok (inr union_matches)
  | inner_type :: rest =>
      match build inner_type data with
      | Raise _ => union_loop rest data union_matches
      | OutOfFuel => OutOfFuel
      | Ok v =>
          match union_accepts inner_type v with
          | Ok true =>
              if strict_unions_match config
              then union_loop rest data (union_matches ++ [(inner_type, v)])
              else Ok (inl v)
          | Ok false => union_loop rest data union_matches
          | Raise e => if is_dacite_error e then union_loop rest data union_matches else Raise e
          | OutOfFuel => OutOfFuel
          end
      end
  end.

(** [union_matches.popitem()[1]] *)
Definition popitem_value (union_matches : list (ty * value)) : result value :=
  match last union_matches with
  | Some (_, v) => Ok v
  | None => Raise (KeyError (Some "popitem(): dictionary is empty"))
  end.

Definition _build_value_for_union (union : ty) (data : value) : result value :=
  let types := extract_generic union [] in
  if is_optional union && bool_decide (length types = 2) then
    match types with
    | type_ :: _ => build type_ data
    | [] => Raise IndexError
    end
  else
    r <- union_loop types data [] ;;
    match r with
    | inl v => Ok v
    | inr union_matches =>
        if strict_unions_match config then
          if bool_decide (1 < length union_matches)
          then Raise (StrictUnionMatchError None union_matches)
          else popitem_value union_matches
        else if negb (check_types config) then Ok data
        else Raise (UnionMatchError None union data)
    end.

(** *** [_build_value_for_collection] *)

(** [set(generator)]: every element is built, then hashed and added. *)
Definition set_add (v : value) (acc : list value) : list value :=
  if existsb (py_eq rt v) acc then acc else acc ++ [v].

Fixpoint set_of (items : list (result value)) (acc : list value) : result value :=
  match items with
  | [] => Ok (VSet acc)
  | item :: rest =>
      v <- item ;;
      if hashable rt v then set_of rest (set_add v acc)
      else Raise (TypeError "unhashable type")
  end.

(** [dict(generator)]: every element is built, then read as a key and a
    value. *)
Fixpoint dict_of (items : list (result value)) (acc : dict) : result value :=
  match items with
  | [] => Ok (VDict acc)
  | item :: rest =>
      v <- item ;;
      kv <- dict_item rt v ;;
      dict_of rest (dict_set kv.1 kv.2 acc)
  end.

(** [data_type(_build_value(type_=item_type, data=item, config=config) for
    item in data)], with [data_type = data.__class__]: a list, a tuple and a
    set consume the generator, iterating a dictionary gives its keys, and
    [str] of a generator does not run it. *)
Definition rebuild_items (item_type : ty) (data : value) : result value :=
  match data with
  | VList items => built <- mapM (build item_type) items ;; Ok (VList built)
  | VTuple items => built <- mapM (build item_type) items ;; Ok (VTuple built)
  | VSet items => set_of (build item_type <$> items) []
  | VDict entries => dict_of ((fun k => build item_type (VStr k)) <$> dict_keys entries) []
  | VStr _ => Ok (VStr (generator_repr rt))
  | v => Ok v
  end.

Definition _build_value_for_collection (collection : ty) (data : value) : result value :=
  if is_mapping data && is_subclass rt collection CMapping then
    match extract_generic collection [TAny; TAny] !! 1%nat with
    | None => Raise IndexError
    | Some item_type =>
        match data with
        | VDict entries =>
            built <- mapM (fun kv => v <- build item_type kv.2 ;; Ok (kv.1, v)) entries ;;
            Ok (VDict built)
        | v => Ok v
        end
    end
  else if is_tuple data && is_subclass rt collection CTuple then
    match data with
    | VTuple [] => Ok (VTuple [])
    | VTuple items =>
        match extract_generic collection [] with
        | [type_; TEllipsis] => built <- mapM (build type_) items ;; Ok (VTuple built)
        | types =>
            built <- mapM (fun p => build p.2 p.1) (zip_longest items types) ;;
            Ok (VTuple built)
        end
    | v => Ok v
    end
  else if is_collection data && is_subclass rt collection CCollection then
    match extract_generic collection [TAny] with
    | item_type :: _ => rebuild_items item_type data
    | [] => Raise IndexError
    end
  else Ok data.

(** *** [from_dict] *)

(** Lines 60-63: the strict check, once, over the whole raw map. *)
Definition extra_fields (data_class : Dataclass) (data : dict) : gset string :=
  list_to_set (dict_keys data) ∖ list_to_set (f_name <$> dc_fields data_class).

Definition strict_check (data_class : Dataclass) (data : dict) : result unit :=
  if strict config && negb (bool_decide (extra_fields data_class data = ∅))
  then Raise (UnexpectedDataError (extra_fields data_class data))
  else Ok ().

(** [reduce(operator.or_, bs)] *)
Definition reduce_or (bs : list bool) : result bool :=
  match bs with
  | [] => Raise (TypeError "reduce() of empty iterable with no initial value")
  | b :: bs' => Ok (foldl orb b bs')
  end.

(** Lines 90-110: the verification of a directly keyed field. *)
Definition check_field (field : Field) (v : value) : result unit :=
  let field_type := f_type field in
  let wrong_type : result unit :=
    Raise (WrongTypeError (Some (f_name field)) field_type v) in
  if negb (check_types config) then Ok ()
  else if allow_superclasses config && is_union field_type then
    subs <- mapM (fun inner_type => issubclass rt inner_type (type_of v))
                (extract_generic field_type []) ;;
    is_sub <- reduce_or subs ;;
    if is_sub then Ok () else wrong_type
  else if is_generic_alias field_type then
    match field_type with
    | TGeneric CList args =>
        match args with
        | [] => Raise IndexError
        | contained_type :: _ =>
            match v with
            | VList [] => Ok ()
            | VList (first :: _) =>
                sub <- issubclass rt contained_type (type_of first) ;;
                if sub then Ok () else wrong_type
            | _ => wrong_type
            end
        end
    | _ => Ok ()
    end
  else
    sup <- (if allow_superclasses config then issubclass rt field_type (type_of v)
           else Ok false) ;;
    if sup then Ok ()
    else if is_instance rt v field_type then Ok ()
    else wrong_type.

(** The path-spec registered for a field of a data class, if any. *)
Definition registered_path (data_class : Dataclass) (field : Field) : option path_spec :=
  paths config !! dc_name data_class ≫= (.!! f_name field).

Definition is_skip (path_or_paths : path_spec) : bool :=
  match path_or_paths with
  | PathStr path => String.eqb "SKIPME" path
  | _ => false
  end.

(** Lines 72-75: the fallback handed to the path lookup, the default of the
    field or, when it has none, a [DefaultValueNotFoundError] object. *)
Definition path_fallback (field : Field) (path_or_paths : path_spec) (data : dict)
  : result value :=
  match get_default_value_for_field rt field (f_type field) with
  | Raise (DefaultValueNotFoundError _) =>
      Ok (VExc (DefaultValueNotFoundError (Some (path_or_paths, data))))
  | r => r
  end.

(** The body of the loop over the fields up to line 117: [Ok (Some v)] when
    the field is given the value [v], [Ok None] on [continue]. *)
Definition resolve_field (data_class : Dataclass) (data : dict) (field : Field)
  : result (option value) :=
  let field_type := f_type field in
  match registered_path data_class field with
  | Some path_or_paths =>
      if is_skip path_or_paths then Ok None
      else
        default <- path_fallback field path_or_paths data ;;
        deep_field_data <- _get_deep_value data path_or_paths default ;;
        v <- build field_type deep_field_data ;;
        Ok (Some v)
  | None =>
      match dict_get (f_name field) data with
      | Some field_data =>
          v <- try_except (build field_type field_data)
                (fun error => Raise (update_path (f_name field) error)) ;;
          _ <- check_field field v ;;
          Ok (Some v)
      | None =>
          match get_default_value_for_field rt field field_type with
          | Raise (DefaultValueNotFoundError _) =>
              if negb (f_init field) then Ok None
              else Raise (MissingValueError (Some (f_name field)))
          | r => v <- r ;; Ok (Some v)
          end
      end
  end.

(** Lines 118-121: where a resolved value goes. *)
Definition route (data_class : Dataclass) (field : Field) (v : value)
  (maps : dict * dict) : dict * dict :=
  if f_init field then (dict_set (f_name field) v maps.1, maps.2)
  else if negb (dc_frozen data_class) then (maps.1, dict_set (f_name field) v maps.2)
  else maps.

(** The loop over the fields, on the pair of [init_values] and
    [post_init_values]. *)
Fixpoint resolve_fields (data_class : Dataclass) (data : dict) (fields : list Field)
  (maps : dict * dict) : result (dict * dict) :=
  match fields with
  | [] => Ok maps
  | field :: rest =>
      r <- resolve_field data_class data field ;;
      resolve_fields data_class data rest
        (match r with
         | Some v => route data_class field v maps
         | None => maps
         end)
  end.

Definition from_dict (data_class : Dataclass) (data : dict) : result value :=
  _ <- strict_check data_class data ;;
  maps <- resolve_fields data_class data (dc_fields data_class) ([], []) ;;
  instance <- construct data_class maps.1 ;;
  Ok (setattrs instance maps.2).

(** *** [_build_value] *)

Definition is_str (v : value) : option string :=
  match v with VStr s => Some s | _ => None end.

(** The body of [_build_value]. *)
Definition build_value_body (type_ : ty) (data : value) : result value :=
  let type_ := if is_init_var type_ then extract_init_var type_ else type_ in
  data <- match type_hooks config type_ with
         | Some hook => hook data
         | None => Ok data
         end ;;
  if is_optional type_ && is_None data then Ok data
  else
    data <- (if is_union type_ then _build_value_for_union type_ data
            else if is_generic_collection rt type_ then _build_value_for_collection type_ data
            else match is_dataclass rt type_, data with
                 | Some data_class, VDict entries => from_dict data_class entries
                 | _, _ => Ok data
                 end) ;;
    if existsb (is_subclass rt type_) (cast config) then
      if is_generic_collection rt type_
      then call_type rt (extract_origin_collection type_) data
      else call_type rt type_ data
    else
      match (if follow_type_hints config then is_str data else None), type_ with
      | Some s, TClass CInt => int_of_str rt s
      | Some s, TClass CFloat => float_of_str rt s
      | _, _ => Ok data
      end.

End Engine.

(** [_build_value], by fuel: one unit for every nested call. *)
Fixpoint _build_value (rt : Runtime) (config : Config) (fuel : nat) (type_ : ty)
  (data : value) : result value :=
  match fuel with
  | O => OutOfFuel
  | S fuel' => build_value_body rt config (_build_value rt config fuel') type_ data
  end.

(** The entry point: [from_dict(data_class, data, config)]. *)
Definition dacite_from_dict (rt : Runtime) (config : Config) (fuel : nat)
  (data_class : Dataclass) (data : dict) : result value :=
  from_dict rt config (_build_value rt config fuel) data_class data.

(** ** A runtime for the worked examples *)

(** Modelled from the spec: [dacite/types.py] is not among the sources.
    [is_instance] is the structural instance-of match against the full
    declared type: any value conforms to [Any], a value conforms to a union
    when it conforms to a member, to a generic collection when it is of the
    origin class and its elements conform, and to a class when its runtime
    class descends from it (an [int] also conforms to [float]). *)
Fixpoint structural_is_instance (issub : cls -> cls -> bool) (type_ : ty) (v : value)
  {struct type_} : bool :=
  match type_ with
  | TAny => true
  | TUnion args => existsb (fun t => structural_is_instance issub t v) args
  | TGeneric origin args =>
      issub (type_of v) origin &&
      match v, args with
      | VList items, [t] | VSet items, [t] | VTuple items, [t; TEllipsis] =>
          forallb (structural_is_instance issub t) items
      | VTuple items, ts =>
          bool_decide (length items = length ts) &&
          forallb id (zip_with (fun t item => structural_is_instance issub t item) ts items)
      | VDict entries, [_; t] =>
          forallb (fun kv => structural_is_instance issub t kv.2) entries
      | _, _ => true
      end
  | TClass CFloat => issub (type_of v) CInt || issub (type_of v) CFloat
  | TClass c => issub (type_of v) c
  | TInitVar t => structural_is_instance issub t v
  | TEllipsis | TNoneValue => false
  end.

Definition lookup_dataclass (table : list Dataclass) (name : string) : option Dataclass :=
  find (fun data_class => String.eqb name (dc_name data_class)) table.

Definition scalar_eq (a b : value) : bool :=
  match a, b with
  | VNone, VNone => true
  | VBool x, VBool y => bool_decide (x = y)
  | VInt x, VInt y => bool_decide (x = y)
  | VBool x, VInt y | VInt y, VBool x => bool_decide ((if x then 1 else 0)%Z = y)
  | VStr x, VStr y => String.eqb x y
  | _, _ => false
  end.

Definition is_scalar (v : value) : bool :=
  match v with
  | VNone | VBool _ | VInt _ | VFloat _ | VStr _ => true
  | _ => false
  end.

(** A runtime over a table of data classes and the ancestors of the user
    classes: [issubclass] rejects what is not a class, no type can be called,
    no string parses as a number, and only scalars are hashed and compared.
    The examples below reach none of the last three. *)
Definition example_runtime (table : list Dataclass) (anc : string -> list cls) : Runtime :=
  let base := {|
    ancestors := anc;
    dataclasses := lookup_dataclass table;
    is_instance := fun _ _ => false;
    issubclass_hint := fun _ _ => Raise (TypeError "issubclass() arg 1 must be a class");
    call_type := fun _ _ => Raise (TypeError "object is not callable");
    int_of_str := fun _ => Raise (ValueError "invalid literal for int()");
    float_of_str := fun _ => Raise (ValueError "could not convert string to float");
    hashable := is_scalar;
    py_eq := scalar_eq;
    dict_item := fun _ => Raise (TypeError "cannot convert dictionary update sequence element");
    generator_repr := "<generator object>"
  |} in
  {|
    ancestors := anc;
    dataclasses := lookup_dataclass table;
    is_instance := fun v type_ => structural_is_instance (class_issubclass base) type_ v;
    issubclass_hint := issubclass_hint base;
    call_type := call_type base;
    int_of_str := int_of_str base;
    float_of_str := float_of_str base;
    hashable := hashable base;
    py_eq := py_eq base;
    dict_item := dict_item base;
    generator_repr := generator_repr base
  |}.

(** [Config()]: the defaults of [dacite/config.py]. *)
Definition default_config : Config := {|
  type_hooks := fun _ => None;
  cast := [];
  check_types := true;
  strict := false;
  strict_unions_match := false;
  allow_superclasses := false;
  follow_type_hints := false;
  paths := ∅
|}.

Definition required (name : string) (type_ : ty) : Field :=
  {| f_name := name; f_type := type_; f_default := None;
     f_default_factory := None; f_init := true |}.

Definition with_default (name : string) (type_ : ty) (default : value) : Field :=
  {| f_name := name; f_type := type_; f_default := Some default;
     f_default_factory := None; f_init := true |}.

Definition str : ty := TClass CStr.
Definition int : ty := TClass CInt.
Definition bool_ : ty := TClass CBool.
Definition float : ty := TClass CFloat.

(** ** The specification's reading of a dotted path *)

(** Walking the intermediate segments [segs] from [d]: every segment must be
    present and resolve to a nested map. *)
Fixpoint descend (segs : list string) (d : dict) : option dict :=
  match segs with
  | [] => Some d
  | k :: rest =>
      match dict_get k d with
      | Some (VDict d') => descend rest d'
      | _ => None
      end
  end.

(** ** The scenarios of the test suite *)

(** [str.lower] on ASCII text, as the hook [{str: str.lower}]: applied to
    anything but a string it raises a [TypeError]. *)
Definition lower_char (c : Ascii.ascii) : Ascii.ascii :=
  let n := Ascii.nat_of_ascii c in
  if (65 <=? n)%nat && (n <=? 90)%nat then Ascii.ascii_of_nat (n + 32) else c.

Fixpoint lower (s : string) : string :=
  match s with
  | EmptyString => EmptyString
  | String c s' => String (lower_char c) (lower s')
  end.

Definition str_lower (v : value) : result value :=
  match v with
  | VStr s => Ok (VStr (lower s))
  | _ => Raise (TypeError "descriptor 'lower' requires a 'str' object")
  end.

(** [Config(type_hooks={str: str.lower})] *)
Definition lower_hook_config : Config := {|
  type_hooks := fun type_ => match type_ with TClass CStr => Some str_lower | _ => None end;
  cast := [];
  check_types := true;
  strict := false;
  strict_unions_match := false;
  allow_superclasses := false;
  follow_type_hints := false;
  paths := ∅
|}.

(** [class X: s: Optional[str]] *)
Definition X_optional_str : Dataclass :=
  {| dc_name := "X"; dc_fields := [required "s" (Optional str)]; dc_frozen := false |}.

(** [Config(strict_unions_match=True)] *)
Definition strict_unions_config : Config := {|
  type_hooks := fun _ => None;
  cast := [];
  check_types := true;
  strict := false;
  strict_unions_match := true;
  allow_superclasses := false;
  follow_type_hints := false;
  paths := ∅
|}.

(** The elements held by a list, a tuple or a set. *)
Definition elements_of (v : value) : list value :=
  match v with
  | VList items | VTuple items | VSet items => items
  | _ => []
  end.

(** The configuration with [strict] set to [b]. *)
Definition with_strict (b : bool) (config : Config) : Config := {|
  type_hooks := type_hooks config;
  cast := cast config;
  check_types := check_types config;
  strict := b;
  strict_unions_match := strict_unions_match config;
  allow_superclasses := allow_superclasses config;
  follow_type_hints := follow_type_hints config;
  paths := paths config
|}.

(** [class Y: s: str] and [class X: y: Y] *)
Definition Y_str : Dataclass :=
  {| dc_name := "Y"; dc_fields := [required "s" str]; dc_frozen := false |}.

Definition X_nested : Dataclass :=
  {| dc_name := "X"; dc_fields := [required "y" (TClass (CUser "Y"))]; dc_frozen := false |}.

(** [class X: s: str] *)
Definition X_str : Dataclass :=
  {| dc_name := "X"; dc_fields := [required "s" str]; dc_frozen := false |}.


(** The rule of lines 101-106 for a field declared [List[c]], as a test on
    the built value: it is a [list] and, when it is not empty, the declared
    element class is the runtime class of its first element or a subclass of
    it. *)
Definition first_element_rule (rt : Runtime) (c : cls) (v : value) : bool :=
  match v with
  | VList [] => true
  | VList (first :: _) => class_issubclass rt c (type_of first)
  | _ => false
  end.

(** [Config(paths={data_class: specs})] *)
Definition paths_config (data_class : string) (specs : list (string * path_spec)) : Config := {|
  type_hooks := fun _ => None;
  cast := [];
  check_types := true;
  strict := false;
  strict_unions_match := false;
  allow_superclasses := false;
  follow_type_hints := false;
  paths := {[ data_class := list_to_map specs ]}
|}.

(** [class X: i: int], [class X: u: Union[int, str]] and [class X: l: List[t]] *)
Definition X_int : Dataclass :=
  {| dc_name := "X"; dc_fields := [required "i" int]; dc_frozen := false |}.

Definition X_union : Dataclass :=
  {| dc_name := "X"; dc_fields := [required "u" (TUnion [int; str])]; dc_frozen := false |}.

Definition X_list (t : ty) : Dataclass :=
  {| dc_name := "X"; dc_fields := [required "l" (List t)]; dc_frozen := false |}.

(** The runtime of the examples without nested data classes, and the one
    that knows [X_nested] and [Y_str]. *)
Definition plain_runtime : Runtime := example_runtime [] (fun _ => []).

Definition nested_runtime : Runtime := example_runtime [X_nested; Y_str] (fun _ => []).


Definition nested_data : dict := [("y", VDict [("s", VStr "a"); ("z", VInt 1)])].

(** The data classes of [tests/core/test_config.py]. *)

(** [class X1: s1: str = None; s2: str = "default"] *)
Definition X1 : Dataclass :=
  {| dc_name := "X1";
     dc_fields := [with_default "s1" str VNone; with_default "s2" str (VStr "default")];
     dc_frozen := false |}.

(** [class X: a: str; b: int] *)
Definition X_a_b : Dataclass :=
  {| dc_name := "X"; dc_fields := [required "a" str; required "b" int]; dc_frozen := false |}.

(** [class X: s: Union[str, int]] and [class X: i: Union[int, float]] *)
Definition X_str_or_int : Dataclass :=
  {| dc_name := "X"; dc_fields := [required "s" (TUnion [str; int])]; dc_frozen := false |}.

Definition X_int_or_float : Dataclass :=
  {| dc_name := "X"; dc_fields := [required "i" (TUnion [int; float])]; dc_frozen := false |}.

(** [class X: i: int], [class Y: i: int] and [class Z: u: Union[X, Y]];
    [class X: f: str], [class Y: f: int] *)
Definition named (name field : string) (type_ : ty) : Dataclass :=
  {| dc_name := name; dc_fields := [required field type_]; dc_frozen := false |}.

Definition Z_union : Dataclass := named "Z" "u" (TUnion [TClass (CUser "X"); TClass (CUser "Y")]).

Definition ambiguous_runtime : Runtime :=
  example_runtime [named "X" "i" int; named "Y" "i" int; Z_union] (fun _ => []).

Definition single_runtime : Runtime :=
  example_runtime [named "X" "f" str; named "Y" "f" int; Z_union] (fun _ => []).

(** [class CarCompany(str)], a data class without fields, and the classes
    that declare a brand of that type. *)
Definition CarCompany : ty := TClass (CUser "CarCompany").

Definition car_runtime : Runtime :=
  example_runtime [{| dc_name := "CarCompany"; dc_fields := []; dc_frozen := false |}]
    (fun name => if String.eqb name "CarCompany" then [CStr; CCollection] else []).

Definition Dealership : Dataclass := named "Dealership" "brand" CarCompany.
Definition Dealership2 : Dataclass := named "Dealership2" "brand" (TUnion [CarCompany; int]).
Definition Dealership3 : Dataclass := named "Dealership3" "brands" (List CarCompany).

(** [Config(allow_superclasses=True)] and [Config(check_types=False)] *)
Definition allow_superclasses_config : Config := {|
  type_hooks := fun _ => None;
  cast := [];
  check_types := true;
  strict := false;
  strict_unions_match := false;
  allow_superclasses := true;
  follow_type_hints := false;
  paths := ∅
|}.

Definition unchecked_config : Config := {|
  type_hooks := fun _ => None;
  cast := [];
  check_types := false;
  strict := false;
  strict_unions_match := false;
  allow_superclasses := false;
  follow_type_hints := false;
  paths := ∅
|}.

(** ** Further notions used to state what the engine does *)

(** [path] resolves in [data]: its intermediate segments lead through nested
    maps to a map that holds its final segment, with the value [v]. *)
Definition resolves_to (path : string) (data : dict) (v : value) : Prop :=
  ∃ pre last d, split_dot path = pre ++ [last] ∧
    descend pre data = Some d ∧ dict_get last d = Some v.

(** A member of a union with the value it is accepted with: its build
    returns and the result passes the test of lines 202-203. *)
Definition accepted_member (rt : Runtime) (config : Config)
  (build : ty -> value -> result value) (data : value) (t : ty) : option (ty * value) :=
  match build t data with
  | Ok v =>
      match union_accepts rt config t v with
      | Ok true => Some (t, v)
      | _ => None
      end
  | _ => None
  end.

(** A member of a union is settled when its build raises, or returns a
    value on which the acceptance test gives an answer. *)
Definition settled_member (rt : Runtime) (config : Config)
  (build : ty -> value -> result value) (data : value) (t : ty) : Prop :=
  (∃ e, build t data = Raise e) ∨
  (∃ v b, build t data = Ok v ∧ union_accepts rt config t v = Ok b).

(** [Union[int, str]], and the configuration with [allow_superclasses] and
    [strict_unions_match] both on. *)
Definition int_or_str : ty := TUnion [int; str].

Definition bool_or_int : ty := TUnion [bool_; int].

(** The entries of a raw map whose keys name a field of the data class. *)
Definition only_fields (data_class : Dataclass) (data : dict) : dict :=
  filter (fun kv => kv.1 ∈ f_name <$> dc_fields data_class) data.

(** [class X: s: str = "d"] with a field [t: int] that is kept out of the
    constructor ([field(init=False)]), plain and frozen. *)
Definition X_post (frozen : bool) : Dataclass :=
  {| dc_name := "X";
     dc_fields := [required "s" str;
                   {| f_name := "t"; f_type := int; f_default := None;
                      f_default_factory := None; f_init := false |}];
     dc_frozen := frozen |}.

(** [Config(follow_type_hints=True)] over a runtime whose [int] reads
    decimal digits. *)
Fixpoint digits_value (s : string) (acc : Z) : option Z :=
  match s with
  | EmptyString => Some acc
  | String c s' =>
      let n := Ascii.nat_of_ascii c in
      if (48 <=? n)%nat && (n <=? 57)%nat
      then digits_value s' (10 * acc + Z.of_nat (n - 48))%Z
      else None
  end.

Definition digits_runtime : Runtime := {|
  ancestors := ancestors plain_runtime;
  dataclasses := dataclasses plain_runtime;
  is_instance := is_instance plain_runtime;
  issubclass_hint := issubclass_hint plain_runtime;
  call_type := call_type plain_runtime;
  int_of_str := fun s =>
    match s, digits_value s 0 with
    | String _ _, Some n => Ok (VInt n)
    | _, _ => Raise (ValueError "invalid literal for int() with base 10")
    end;
  float_of_str := float_of_str plain_runtime;
  hashable := hashable plain_runtime;
  py_eq := py_eq plain_runtime;
  dict_item := dict_item plain_runtime;
  generator_repr := generator_repr plain_runtime
|}.

Definition follow_type_hints_config : Config := {|
  type_hooks := fun _ => None;
  cast := [];
  check_types := true;
  strict := false;
  strict_unions_match := false;
  allow_superclasses := false;
  follow_type_hints := true;
  paths := ∅
|}.

(** [Config(type_hooks={str: str.lower}, paths={"X": {"s": ["foo.bar", "baz"]}})]
    and [class X: s: str = "DEFAULT"] *)
Definition lower_paths_config : Config := {|
  type_hooks := type_hooks lower_hook_config;
  cast := [];
  check_types := true;
  strict := false;
  strict_unions_match := false;
  allow_superclasses := false;
  follow_type_hints := false;
  paths := {[ "X" := {[ "s" := PathList ["foo.bar"; "baz"] ]} ]}
|}.

Definition X_default : Dataclass :=
  {| dc_name := "X"; dc_fields := [with_default "s" str (VStr "DEFAULT")];
     dc_frozen := false |}.

(** The pairs that [zip_longest(data, types)] yields, said position by
    position: the common positions, then the raw elements left over, each
    with [None] for its type, then the types left over, each with [None] for
    its data. *)
Definition padded_pairs (items : list value) (ts : list ty) : list (value * ty) :=
  zip items ts
  ++ ((fun item => (item, TNoneValue)) <$> drop (length ts) items)
  ++ ((fun t => (VNone, t)) <$> drop (length items) ts).
(** * Properties *)

(** ** The path navigator *)

Lemma _get_cons k p d default :
  p ≠ [] →
  _get (k :: p) d default =
    match dict_get k d with
    | None => raise_or_return default
    | Some (VDict d') => _get p d' default
    | Some _ => Raise (KeyError (Some ("element is not a dict: " +:+ k)))
    end.
Proof. destruct p; [done | reflexivity]. Qed.

Lemma _has_cons k p d :
  p ≠ [] →
  _has (k :: p) d =
    match dict_get k d with
    | None => Ok false
    | Some (VDict d') => _has p d'
    | Some _ => Ok false
    end.
Proof. destruct p; [done | reflexivity]. Qed.

Lemma _get_descend pre rest d d' default :
  rest ≠ [] → descend pre d = Some d' →
  _get (pre ++ rest) d default = _get rest d' default.
Proof.
  intros Hrest. revert d.
  induction pre as [|k pre IH]; intros d Hd; simpl in Hd.
  - by inversion Hd.
  - rewrite <- app_comm_cons, _get_cons by (destruct pre; done).
    destruct (dict_get k d) as [[]|]; try done. by apply IH.
Qed.

Lemma split_on_nonempty sep s : split_on sep s ≠ [].
Proof.
  destruct s as [|c s]; simpl; [done|].
  destruct (Ascii.eqb c sep); [done|]. by destruct (split_on sep s).
Qed.

Lemma split_dot_snoc path : ∃ pre last, split_dot path = pre ++ [last].
Proof.
  destruct (split_dot path) as [|k p] eqn:E using rev_ind.
  - by destruct (split_on_nonempty "."%char path).
  - eauto.
Qed.

(** C6: [get] returns the value at a present final segment; on a missing
    intermediate or final segment it returns the default, or raises it when
    the default is an error value; on an intermediate segment that resolves
    to something that is not a map it raises a [KeyError], whatever the
    default. *)
Theorem get_outcomes (path : string) (data : dict) (default : value)
    (pre : list string) (last : string) :
  split_dot path = pre ++ [last] →
  (∀ d v, descend pre data = Some d → dict_get last d = Some v →
     get path data default = Ok v) ∧
  (∀ d, descend pre data = Some d → dict_get last d = None →
     get path data default =
       match default with VExc e => Raise e | _ => Ok default end) ∧
  (∀ pre1 k rest d, pre = pre1 ++ k :: rest →
     descend pre1 data = Some d → dict_get k d = None →
     get path data default =
       match default with VExc e => Raise e | _ => Ok default end) ∧
  (∀ pre1 k rest d v, pre = pre1 ++ k :: rest →
     descend pre1 data = Some d → dict_get k d = Some v → is_mapping v = false →
     get path data default = Raise (KeyError (Some ("element is not a dict: " +:+ k)))).
Proof.
  intros Hsplit. unfold get. rewrite Hsplit.
  assert (Hdef : raise_or_return default =
                 match default with VExc e => Raise e | _ => Ok default end)
    by (by destruct default).
  repeat split.
  - intros d v Hd Hv. rewrite (_get_descend _ _ _ d) by done. simpl. by rewrite Hv.
  - intros d Hd Hv. rewrite (_get_descend _ _ _ d) by done. simpl. by rewrite Hv.
  - intros pre1 k rest d -> Hd Hk.
    rewrite <- app_assoc, (_get_descend _ _ _ d) by done.
    rewrite <- app_comm_cons, _get_cons by (destruct rest; done). by rewrite Hk.
  - intros pre1 k rest d v -> Hd Hk Hv.
    rewrite <- app_assoc, (_get_descend _ _ _ d) by done.
    rewrite <- app_comm_cons, _get_cons by (destruct rest; done).
    rewrite Hk. by destruct v.
Qed.

Lemma get_outcomes_witness :
  get "a.b" [("a", VDict [("b", VInt 2)])] VNone = Ok (VInt 2) ∧
  get "a.c" [("a", VDict [("b", VInt 2)])] (VStr "foo") = Ok (VStr "foo") ∧
  get "b.c.d" [("a", VDict [("b", VInt 2)])] (VExc (ValueError "foo"))
    = Raise (ValueError "foo") ∧
  get "a.b.c" [("a", VDict [("b", VInt 2)])] (VStr "foo")
    = Raise (KeyError (Some "element is not a dict: b")).
Proof.
  split; [|split; [|split]].
  - exact (proj1 (get_outcomes "a.b" [("a", VDict [("b", VInt 2)])] VNone
                    ["a"] "b" eq_refl)
             [("b", VInt 2)] (VInt 2) eq_refl eq_refl).
  - exact (proj1 (proj2 (get_outcomes "a.c" [("a", VDict [("b", VInt 2)])] (VStr "foo")
                    ["a"] "c" eq_refl))
             [("b", VInt 2)] eq_refl eq_refl).
  - exact (proj1 (proj2 (proj2 (get_outcomes "b.c.d" [("a", VDict [("b", VInt 2)])]
                    (VExc (ValueError "foo")) ["b"; "c"] "d" eq_refl)))
             [] "b" ["c"] [("a", VDict [("b", VInt 2)])] eq_refl eq_refl eq_refl).
  - exact (proj2 (proj2 (proj2 (get_outcomes "a.b.c" [("a", VDict [("b", VInt 2)])]
                    (VStr "foo") ["a"; "b"] "c" eq_refl)))
             ["a"] "b" [] [("b", VInt 2)] (VInt 2) eq_refl eq_refl eq_refl eq_refl).
Defined.

(** ** Ordered-candidate resolution *)

Lemma _has_true_get p d :
  _has p d = Ok true → ∃ v, ∀ default, _get p d default = Ok v.
Proof.
  revert d. induction p as [|k p IH]; intros d H; [done|].
  destruct p as [|k' p].
  - simpl in *. unfold dict_has in H.
    destruct (dict_get k d) as [v|]; [eauto | done].
  - rewrite _has_cons in H by done.
    destruct (dict_get k d) as [[]|] eqn:E; try done.
    destruct (IH _ H) as [v Hv]. exists v. intros default.
    rewrite _get_cons, E by done. apply Hv.
Qed.

Lemma _has_false_get p d e0 :
  _has p d ≠ Ok true → ∃ e, _get p d (VExc e0) = Raise e.
Proof.
  revert d. induction p as [|k p IH]; intros d H; [by eexists|].
  destruct p as [|k' p].
  - simpl in *. unfold dict_has in H.
    destruct (dict_get k d) as [v|]; [done | by eexists].
  - rewrite _has_cons in H by done. rewrite _get_cons by done.
    destruct (dict_get k d) as [[]|] eqn:E; try by eexists.
    by apply IH.
Qed.

Lemma try_paths_skip data before rest :
  (∀ q, q ∈ before → has q data ≠ Ok true) →
  try_paths data (before ++ rest) = try_paths data rest.
Proof.
  induction before as [|q before IH]; intros H; [done|]. simpl.
  destruct (_has_false_get (split_dot q) data (KeyError None)) as [e He].
  { apply H. by left. }
  unfold get at 1. rewrite He. apply IH. intros q' Hq'. apply H. by right.
Qed.

(** C7: for a list of candidate paths, [_get_deep_value] returns the value
    of the first candidate that resolves in the data, whatever the candidates
    after it, the failures of the candidates before it being swallowed; when
    no candidate resolves it falls back to the default, raising it when it is
    an error value and returning it otherwise. *)
Theorem get_deep_value_first_candidate (data : dict) (paths : list string)
    (default : value) :
  (∀ before p after, paths = before ++ p :: after →
     (∀ q, q ∈ before → has q data ≠ Ok true) → has p data = Ok true →
     ∃ v, (∀ default', get p data default' = Ok v) ∧
          _get_deep_value data (PathList paths) default = Ok v) ∧
  ((∀ q, q ∈ paths → has q data ≠ Ok true) →
     _get_deep_value data (PathList paths) default =
       match default with VExc e => Raise e | _ => Ok default end).
Proof.
  split.
  - intros before p after -> Hbefore Hp.
    destruct (_has_true_get _ _ Hp) as [v Hv]. exists v. split; [exact Hv|].
    simpl. rewrite try_paths_skip by done. simpl.
    unfold get. by rewrite Hv.
  - intros Hall. simpl.
    rewrite <- (app_nil_r paths), try_paths_skip by done. simpl.
    by destruct default.
Qed.

Lemma get_deep_value_first_candidate_witness :
  _get_deep_value [("a", VDict [("b", VInt 1)]); ("c", VInt 2)]
    (PathList ["x.y"; "a.b"; "c"]) VNone = Ok (VInt 1) ∧
  _get_deep_value [("a", VDict [("b", VInt 1)]); ("c", VInt 2)]
    (PathList ["x.y"; "c.d"]) (VExc (ValueError "none of them")) =
    Raise (ValueError "none of them").
Proof.
  pose (data := [("a", VDict [("b", VInt 1)]); ("c", VInt 2)]).
  split.
  - destruct (proj1 (get_deep_value_first_candidate data ["x.y"; "a.b"; "c"] VNone)
                ["x.y"] "a.b" ["c"] eq_refl) as [v [Hv Hdeep]].
    + intros q Hq. apply list_elem_of_singleton in Hq as ->. vm_compute. discriminate.
    + reflexivity.
    + specialize (Hv VNone). vm_compute in Hv. injection Hv as <-. exact Hdeep.
  - apply (proj2 (get_deep_value_first_candidate data ["x.y"; "c.d"]
                    (VExc (ValueError "none of them")))).
    intros q Hq.
    apply elem_of_cons in Hq as [-> | Hq]; [vm_compute; discriminate|].
    apply list_elem_of_singleton in Hq as ->. vm_compute. discriminate.
Defined.

(** ** Type hooks and Optional fields *)

(** C8: with the hook [{str: str.lower}] and the field [s: Optional[str]],
    the input [{"s": "TEST"}] gives [s = "test"] and the input [{"s": None}]
    gives [s = None]; neither raises, for every runtime and all fuel from 2
    on, although the hook itself raises on [None]. *)
Theorem type_hook_on_optional_str (rt : Runtime) (n : nat) :
  dacite_from_dict rt lower_hook_config (2 + n) X_optional_str [("s", VStr "TEST")]
    = Ok (VInst "X" [("s", VStr "test")]) ∧
  dacite_from_dict rt lower_hook_config (2 + n) X_optional_str [("s", VNone)]
    = Ok (VInst "X" [("s", VNone)]) ∧
  (∃ e, str_lower VNone = Raise e).
Proof.
  repeat split. by eexists.
Qed.

(** ** The verification of directly keyed fields *)

(** C1: a field declared [Optional[str]] and given an [int] is not
    rejected.  With the default configuration ([check_types] on,
    [allow_superclasses] off) the verification of a directly keyed field
    accepts every value for every union-typed field, and the conversion of
    [{"s": k}] returns an instance that holds the [int], for every runtime
    (whatever its [is_instance]) and all fuel from 2 on; the structural
    instance-of match does reject that value. *)
Theorem optional_str_field_holds_int (rt : Runtime) (n : nat) (k : Z) :
  (∀ name args v, check_field rt default_config (required name (TUnion args)) v = Ok ()) ∧
  dacite_from_dict rt default_config (2 + n) X_optional_str [("s", VInt k)]
    = Ok (VInst "X" [("s", VInt k)]) ∧
  is_instance (plain_runtime) (VInt k) (Optional str)
    = false.
Proof.
  repeat split.
Qed.

(** ** The union resolver *)

Section Union.
Context (rt : Runtime) (config : Config) (build : ty → value → result value).

Lemma union_loop_no_candidate types data union_matches :
  (∀ t, t ∈ types →
     (∃ e, build t data = Raise e) ∨
     (∃ v, build t data = Ok v ∧ union_accepts rt config t v = Ok false)) →
  union_loop rt config build types data union_matches = Ok (inr union_matches).
Proof.
  induction types as [|t types IH]; intros H; [done|]. simpl.
  destruct (H t) as [[e ->] | [v [-> ->]]]; [by left | | ];
    apply IH; intros t' Ht'; apply H; by right.
Qed.

(** C2: in strict mode, when the scan of the members of a union accepts no
    candidate (the build of every member raises, or its result is not
    accepted), the resolver does not reach the no-candidate rule: it raises
    the [KeyError] of [popitem] on the empty dictionary of matches, with
    [check_types] on or off. *)
Theorem strict_union_without_candidate_raises_KeyError (union : ty) (data : value) :
  strict_unions_match config = true →
  is_optional union && bool_decide (length (extract_generic union []) = 2) = false →
  (∀ t, t ∈ extract_generic union [] →
     (∃ e, build t data = Raise e) ∨
     (∃ v, build t data = Ok v ∧ union_accepts rt config t v = Ok false)) →
  _build_value_for_union rt config build union data
    = Raise (KeyError (Some "popitem(): dictionary is empty")).
Proof.
  intros Hstrict Hgeneral Hnone. unfold _build_value_for_union.
  rewrite Hgeneral, union_loop_no_candidate by done. simpl.
  by rewrite Hstrict.
Qed.

End Union.

Lemma strict_union_without_candidate_raises_KeyError_witness :
  _build_value (plain_runtime) strict_unions_config 2
    (TUnion [int; str]) (VFloat 0)
    = Raise (KeyError (Some "popitem(): dictionary is empty")).
Proof.
  apply (strict_union_without_candidate_raises_KeyError
           (plain_runtime) strict_unions_config
           (_build_value (plain_runtime) strict_unions_config 1)
           (TUnion [int; str]) (VFloat 0)).
  - reflexivity.
  - reflexivity.
  - intros t Ht. right. exists (VFloat 0).
    apply elem_of_cons in Ht as [-> | Ht]; [by vm_compute|].
    apply list_elem_of_singleton in Ht as ->. by vm_compute.
Defined.

(** ** The collection reconstructor *)

Lemma mapM_Forall2 {A B} (f : A → result B) l l' :
  mapM f l = Ok l' ↔ Forall2 (fun x y => f x = Ok y) l l'.
Proof.
  revert l'. induction l as [|x l IH]; intros l'; simpl.
  - split; [intros [= <-]; constructor | by inversion 1].
  - split.
    + destruct (f x) as [y| |] eqn:Hx; simpl; try done.
      destruct (mapM f l) as [ys| |] eqn:Hl; simpl; try done.
      intros [= <-]. constructor; [done | by apply IH].
    + inversion 1 as [|? y ? ys Hx Hl]; subst. rewrite Hx. simpl.
      apply IH in Hl. by rewrite Hl.
Qed.

Section Collection.
Context (rt : Runtime) (build : ty → value → result value).

Lemma set_add_elem v acc x :
  x ∈ set_add rt v acc → x ∈ acc ∨ x = v.
Proof.
  unfold set_add. destruct (existsb _ _); [by left|].
  rewrite elem_of_app, list_elem_of_singleton. tauto.
Qed.

Lemma set_of_elements (f : value → result value) items acc v :
  set_of rt (f <$> items) acc = Ok v →
  ∃ acc', v = VSet acc' ∧
    ∀ x, x ∈ acc' → x ∈ acc ∨ ∃ item, item ∈ items ∧ f item = Ok x.
Proof.
  revert acc. induction items as [|item items IH]; intros acc; simpl.
  - intros [= <-]. eauto.
  - destruct (f item) as [y| |] eqn:Hy; simpl; try done.
    destruct (hashable rt y); [|done].
    intros H. destruct (IH _ H) as [acc' [-> Hacc']]. exists acc'. split; [done|].
    intros x Hx. destruct (Hacc' x Hx) as [Hin | [item' [Hin Hb]]].
    + apply set_add_elem in Hin as [Hin | ->]; [by left|].
      right. exists item. split; [by left | done].
    + right. exists item'. split; [by right | done].
Qed.

Lemma set_of_total (f : value → result value) items acc :
  Forall (fun item => ∃ b, f item = Ok b ∧ hashable rt b = true) items →
  ∃ acc', set_of rt (f <$> items) acc = Ok (VSet acc').
Proof.
  intros H. revert acc. induction H as [|item items [b [Hb Hh]] _ IH]; intros acc; simpl.
  - eauto.
  - rewrite Hb. simpl. rewrite Hh. apply IH.
Qed.

Lemma set_add_mono v acc x : x ∈ acc → x ∈ set_add rt v acc.
Proof.
  unfold set_add. destruct (existsb _ _); [done|]. intros H. apply elem_of_app. by left.
Qed.

Lemma set_add_represents v acc :
  ∃ x, x ∈ set_add rt v acc ∧ (x = v ∨ py_eq rt v x = true).
Proof.
  unfold set_add. destruct (existsb (py_eq rt v) acc) eqn:E.
  - apply existsb_exists in E as (x & Hx & Heq). exists x.
    split; [by apply list_elem_of_In | by right].
  - exists v. split; [|by left]. apply elem_of_app. right. by apply list_elem_of_singleton.
Qed.

Lemma set_of_complete (f : value → result value) items acc v :
  set_of rt (f <$> items) acc = Ok v →
  ∃ acc', v = VSet acc' ∧ (∀ x, x ∈ acc → x ∈ acc') ∧
    ∀ item b, item ∈ items → f item = Ok b →
      ∃ x, x ∈ acc' ∧ (x = b ∨ py_eq rt b x = true).
Proof.
  revert acc. induction items as [|item items IH]; intros acc; simpl.
  - intros [= <-]. exists acc. split; [done|]. split; [done|].
    intros item b Hin. by apply elem_of_nil in Hin.
  - destruct (f item) as [y| |] eqn:Hy; simpl; try done.
    destruct (hashable rt y); [|done].
    intros H. destruct (IH _ H) as (acc' & -> & Hmono & Hall). exists acc'.
    split; [done|]. split.
    + intros x Hx. by apply Hmono, set_add_mono.
    + intros item' b Hin Hb. apply elem_of_cons in Hin as [-> | Hin].
      * rewrite Hy in Hb. injection Hb as <-.
        destruct (set_add_represents y acc) as (x & Hx & Hrep).
        exists x. split; [by apply Hmono | done].
      * by eapply Hall.
Qed.

(** C3, as the code has it: for a [List[T]] or [Set[T]] target and a raw
    list, tuple or set, every element is rebuilt against [T], and the result
    is a container of the runtime class of the raw value, not of the declared
    collection.  A raw list or tuple whose elements all build gives the list
    or tuple of the built elements; a raw set whose elements all build to
    hashable values gives a set that holds every built element, up to the
    equality by which a set merges its elements; and whatever is returned has
    the class of the raw value, holds only values built against [T] from its
    elements, and holds the value built from each of them (in the same order,
    for a list or a tuple). *)
Theorem collection_keeps_raw_container_class (origin : cls) (t : ty)
    (items : list value) :
  origin = CList ∨ origin = CSet →
  (∀ built, Forall2 (fun item b => build t item = Ok b) items built →
     _build_value_for_collection rt build (TGeneric origin [t]) (VList items)
       = Ok (VList built) ∧
     _build_value_for_collection rt build (TGeneric origin [t]) (VTuple items)
       = Ok (VTuple built)) ∧
  (Forall (fun item => ∃ b, build t item = Ok b ∧ hashable rt b = true) items →
     ∃ acc, _build_value_for_collection rt build (TGeneric origin [t]) (VSet items)
              = Ok (VSet acc) ∧
            ∀ item b, item ∈ items → build t item = Ok b →
              ∃ x, x ∈ acc ∧ (x = b ∨ py_eq rt b x = true)) ∧
  (∀ raw v, raw ∈ [VList items; VTuple items; VSet items] →
     _build_value_for_collection rt build (TGeneric origin [t]) raw = Ok v →
     type_of v = type_of raw ∧
     (∀ x, x ∈ elements_of v → ∃ item, item ∈ items ∧ build t item = Ok x) ∧
     (∀ item, item ∈ items →
        ∃ b x, build t item = Ok b ∧ x ∈ elements_of v ∧
               (x = b ∨ py_eq rt b x = true)) ∧
     (raw ≠ VSet items →
        Forall2 (fun item x => build t item = Ok x) items (elements_of v))).
Proof.
  intros Horigin.
  assert (Hlist : ∀ l, _build_value_for_collection rt build (TGeneric origin [t]) (VList l)
                       = (built <- mapM (build t) l ;; Ok (VList built)))
    by (by destruct Horigin as [-> | ->]).
  assert (Htuple : ∀ l, _build_value_for_collection rt build (TGeneric origin [t]) (VTuple l)
                        = (built <- mapM (build t) l ;; Ok (VTuple built)))
    by (by destruct Horigin as [-> | ->]).
  assert (Hset : ∀ l, _build_value_for_collection rt build (TGeneric origin [t]) (VSet l)
                      = set_of rt (build t <$> l) [])
    by (by destruct Horigin as [-> | ->]).
  split; [|split].
  - intros built Hbuilt. apply mapM_Forall2 in Hbuilt.
    rewrite Hlist, Htuple, Hbuilt. done.
  - intros Hall. rewrite Hset.
    destruct (set_of_total (build t) items [] Hall) as [acc Hacc].
    exists acc. split; [done|].
    destruct (set_of_complete _ _ _ _ Hacc) as (acc' & [= <-] & _ & Hcomplete).
    exact Hcomplete.
  - intros raw v Hraw Hv.
    assert (Hfrom : ∀ built x, mapM (build t) items = Ok built → x ∈ built →
                     ∃ item, item ∈ items ∧ build t item = Ok x).
    { intros built x Hb Hx. apply mapM_Forall2 in Hb.
      destruct (proj1 (list_elem_of_lookup _ _) Hx) as [i Hi].
      destruct (Forall2_lookup_r _ _ _ _ _ Hb Hi) as [item [Hitem Hbuild]].
      exists item. split; [by eapply list_elem_of_lookup_2 | done]. }
    assert (Hto : ∀ built item, mapM (build t) items = Ok built → item ∈ items →
                   ∃ b x, build t item = Ok b ∧ x ∈ built ∧
                          (x = b ∨ py_eq rt b x = true)).
    { intros built item Hb Hitem. apply mapM_Forall2 in Hb.
      destruct (proj1 (list_elem_of_lookup _ _) Hitem) as [i Hi].
      destruct (Forall2_lookup_l _ _ _ _ _ Hb Hi) as [b [Hbi Hbuild]].
      exists b, b. split; [done|]. split; [by eapply list_elem_of_lookup_2 | by left]. }
    repeat (apply elem_of_cons in Hraw as [-> | Hraw]); [| | |by apply elem_of_nil in Hraw].
    + rewrite Hlist in Hv. destruct (mapM (build t) items) as [built| |] eqn:Hb; try done.
      injection Hv as <-. split; [done|]. split; [intros x Hx; by eapply Hfrom|].
      split; [intros item Hitem; by eapply Hto|]. intros _. by apply mapM_Forall2.
    + rewrite Htuple in Hv. destruct (mapM (build t) items) as [built| |] eqn:Hb; try done.
      injection Hv as <-. split; [done|]. split; [intros x Hx; by eapply Hfrom|].
      split; [intros item Hitem; by eapply Hto|]. intros _. by apply mapM_Forall2.
    + rewrite Hset in Hv.
      destruct (set_of_complete _ _ _ _ Hv) as (acc' & -> & _ & Hcomplete).
      destruct (set_of_elements _ _ _ _ Hv) as (acc & [= <-] & Hacc).
      split; [done|]. split; [|split; [|done]].
      * intros x Hx. destruct (Hacc x Hx) as [Hnil | ?]; [|done].
        by apply elem_of_nil in Hnil.
      * intros item Hitem.
        assert (Hb : ∃ b, build t item = Ok b).
        { clear -Hv Hitem. revert Hv. generalize (@nil value).
          induction items as [|item' items IH]; intros acc; [by apply elem_of_nil in Hitem|].
          simpl. destruct (build t item') as [y| |] eqn:Hy; simpl; try done.
          destruct (hashable rt y); [|done]. intros Hrest.
          apply elem_of_cons in Hitem as [-> | Hitem]; [by exists y|]. by eapply IH. }
        destruct Hb as [b Hb]. destruct (Hcomplete item b Hitem Hb) as (x & Hx & Hrep).
        by exists b, x.
Qed.

End Collection.

Lemma collection_keeps_raw_container_class_witness :
  _build_value plain_runtime default_config 2 (List int)
    (VTuple [VInt 1; VInt 2]) = Ok (VTuple [VInt 1; VInt 2]) ∧
  ∃ acc,
    _build_value plain_runtime lower_hook_config 2 (List str)
      (VSet [VStr "A"; VStr "a"; VStr "B"]) = Ok (VSet acc) ∧
    ∀ item b, item ∈ [VStr "A"; VStr "a"; VStr "B"] →
      _build_value plain_runtime lower_hook_config 1 str item = Ok b →
      ∃ x, x ∈ acc ∧ (x = b ∨ py_eq plain_runtime b x = true).
Proof.
  split.
  - refine (proj2 (proj1 (collection_keeps_raw_container_class plain_runtime
              (_build_value plain_runtime default_config 1) CList int [VInt 1; VInt 2]
              (or_introl eq_refl)) [VInt 1; VInt 2] _)).
    repeat constructor.
  - refine (proj1 (proj2 (collection_keeps_raw_container_class plain_runtime
              (_build_value plain_runtime lower_hook_config 1) CList str
              [VStr "A"; VStr "a"; VStr "B"] (or_introl eq_refl))) _).
    repeat constructor; eexists; (split; [reflexivity | reflexivity]).
Defined.

(** C3, as it is stated, fails: a [List[int]] target fed a tuple yields a
    tuple, and a [Set[int]] target fed a list yields a list. *)
Lemma declared_container_class_counterexample :
  (∃ v, _build_value plain_runtime default_config 2 (List int) (VTuple [VInt 1]) = Ok v ∧
        type_of v = CTuple ∧ type_of v ≠ CList) ∧
  (∃ v, _build_value plain_runtime default_config 2 (Set_ int) (VList [VInt 1]) = Ok v ∧
        type_of v = CList ∧ type_of v ≠ CSet).
Proof.
  split; eexists; (split; [reflexivity | split; [reflexivity | discriminate]]).
Qed.

(** ** The object assembler *)

Section Assembler.
Context (rt : Runtime) (config : Config) (build : ty → value → result value).

Lemma extra_fields_spec data_class data k :
  k ∈ extra_fields data_class data ↔
  k ∈ dict_keys data ∧ k ∉ f_name <$> dc_fields data_class.
Proof. unfold extra_fields. set_solver. Qed.

Lemma resolve_fields_with_strict b data_class data fields maps :
  resolve_fields rt (with_strict b config) build data_class data fields maps
  = resolve_fields rt config build data_class data fields maps.
Proof.
  revert maps. induction fields as [|f fields IH]; intros maps; [done|]. simpl.
  change (resolve_field rt (with_strict b config) build data_class data f)
    with (resolve_field rt config build data_class data f).
  destruct (resolve_field rt config build data_class data f); simpl; [apply IH | done..].
Qed.

(** C9, as the code has it: in strict mode [from_dict] raises
    [UnexpectedDataError] with exactly the keys of the raw map that name no
    declared field, whenever there is such a key, before any field is
    resolved (whatever the builder would do); when every key names a field
    the check raises nothing and the outcome is that of the same assembly
    with the check of this level switched off. *)
Theorem strict_check_precedes_fields (data_class : Dataclass) (data : dict) :
  strict config = true →
  (∀ k, k ∈ extra_fields data_class data ↔
        k ∈ dict_keys data ∧ k ∉ f_name <$> dc_fields data_class) ∧
  ((∃ k, k ∈ dict_keys data ∧ k ∉ f_name <$> dc_fields data_class) →
     from_dict rt config build data_class data
       = Raise (UnexpectedDataError (extra_fields data_class data))) ∧
  ((∀ k, k ∈ dict_keys data → k ∈ f_name <$> dc_fields data_class) →
     from_dict rt config build data_class data
       = from_dict rt (with_strict false config) build data_class data).
Proof.
  intros Hstrict. split; [apply extra_fields_spec|]. split.
  - intros [k Hk]. apply extra_fields_spec in Hk.
    unfold from_dict, strict_check. rewrite Hstrict.
    rewrite bool_decide_eq_false_2; [done|]. set_solver.
  - intros Hall. unfold from_dict, strict_check. rewrite Hstrict.
    rewrite bool_decide_eq_true_2.
    + simpl. by rewrite resolve_fields_with_strict.
    + apply set_eq. intros k. rewrite extra_fields_spec. split.
      * intros [Hk Hn]. destruct Hn. by apply Hall.
      * intros Hk. by apply not_elem_of_empty in Hk.
Qed.

(** An exception raised while a field is resolved, the fields before it
    having been resolved, is the outcome of [from_dict]. *)
Lemma resolve_fields_app data_class data before after maps :
  resolve_fields rt config build data_class data (before ++ after) maps
  = (maps' <- resolve_fields rt config build data_class data before maps ;;
     resolve_fields rt config build data_class data after maps').
Proof.
  revert maps. induction before as [|f before IH]; intros maps; [done|]. simpl.
  destruct (resolve_field rt config build data_class data f); simpl; [apply IH | done..].
Qed.

Lemma from_dict_raises_at (data_class : Dataclass) data before field after maps e :
  dc_fields data_class = before ++ field :: after →
  strict_check config data_class data = Ok () →
  resolve_fields rt config build data_class data before ([], []) = Ok maps →
  resolve_field rt config build data_class data field = Raise e →
  from_dict rt config build data_class data = Raise e.
Proof.
  intros Hfields Hstrict Hbefore Hfield. unfold from_dict.
  rewrite Hstrict, Hfields, resolve_fields_app, Hbefore. simpl. by rewrite Hfield.
Qed.

(** C10: a field resolved through a registered path-spec that is not the
    skip sentinel is given whatever the builder returns for the value found,
    without any verification, [check_types] or not; and an exception raised
    by the builder is the outcome as it is, no field name being prepended to
    its path. *)
Theorem path_resolved_field_is_not_verified (data_class : Dataclass) (data : dict)
    (field : Field) (path_or_paths : path_spec) (default raw : value) :
  registered_path config data_class field = Some path_or_paths →
  is_skip path_or_paths = false →
  path_fallback rt field path_or_paths data = Ok default →
  _get_deep_value data path_or_paths default = Ok raw →
  (∀ v, build (f_type field) raw = Ok v →
     resolve_field rt config build data_class data field = Ok (Some v)) ∧
  (∀ e, build (f_type field) raw = Raise e →
     resolve_field rt config build data_class data field = Raise e).
Proof.
  intros Hpath Hskip Hdefault Hraw. unfold resolve_field.
  rewrite Hpath, Hskip, Hdefault. simpl. rewrite Hraw. simpl.
  split; intros ? ->; done.
Qed.

(** *** The skip sentinel *)



Lemma dict_has_set k k' v d :
  dict_has k (dict_set k' v d) = true → k = k' ∨ dict_has k d = true.
Proof.
  unfold dict_has. induction d as [|[k0 v0] d IH]; simpl.
  - destruct (String.eqb_spec k k'); [by left | done].
  - destruct (String.eqb_spec k' k0) as [-> | Hne]; simpl.
    + destruct (String.eqb_spec k k0); [by left | by right].
    + destruct (String.eqb_spec k k0); [by right | apply IH].
Qed.



(** *** List-typed fields *)

(** C5, as the code has it: with [check_types] on, a directly keyed field
    declared [List[c]] is accepted when the built value is a [list] that is
    empty or whose first element has, as its runtime class, the declared
    element class [c] or an ancestor of [c]; otherwise [WrongTypeError] is
    raised with the field, its declared type and the value, and it is the
    outcome of [from_dict] once the fields before this one have been
    resolved. *)
Theorem list_field_first_element_rule (data_class : Dataclass) (data : dict)
    (field : Field) (c : cls) (raw v : value) :
  check_types config = true →
  f_type field = TGeneric CList [TClass c] →
  registered_path config data_class field = None →
  dict_get (f_name field) data = Some raw →
  build (f_type field) raw = Ok v →
  resolve_field rt config build data_class data field =
    (if first_element_rule rt c v then Ok (Some v)
     else Raise (WrongTypeError (Some (f_name field)) (f_type field) v)) ∧
  (first_element_rule rt c v = false →
   ∀ before after maps,
     dc_fields data_class = before ++ field :: after →
     strict_check config data_class data = Ok () →
     resolve_fields rt config build data_class data before ([], []) = Ok maps →
     from_dict rt config build data_class data
       = Raise (WrongTypeError (Some (f_name field)) (f_type field) v)).
Proof.
  intros Hcheck Htype Hpath Hraw Hv.
  assert (Hstep : resolve_field rt config build data_class data field =
    (if first_element_rule rt c v then Ok (Some v)
     else Raise (WrongTypeError (Some (f_name field)) (f_type field) v))).
  { unfold resolve_field.
    rewrite Hpath, Hraw, Hv. simpl. unfold check_field. rewrite Hcheck, Htype. simpl.
    rewrite andb_false_r. simpl.
    destruct v as [| | | | |[|first items]| | | | |]; simpl; try done.
    by destruct (class_issubclass rt c (type_of first)). }
  split; [exact Hstep|].
  intros Hrule before after maps Hfields Hstrict Hbefore.
  rewrite Hrule in Hstep. by eapply from_dict_raises_at.
Qed.

End Assembler.

Lemma strict_check_precedes_fields_witness :
  dacite_from_dict (plain_runtime) (with_strict true default_config)
    1 X_str [("s", VStr "test"); ("i", VInt 1)]
    = Raise (UnexpectedDataError {["i"]}).
Proof.
  pose (data := [("s", VStr "test"); ("i", VInt 1)]).
  change (UnexpectedDataError {["i"]}) with (UnexpectedDataError (extra_fields X_str data)).
  apply (proj1 (proj2 (strict_check_precedes_fields plain_runtime (with_strict true default_config)
                  (_build_value plain_runtime (with_strict true default_config) 1) X_str data eq_refl))).
  exists "i". split; compute_done.
Defined.

(** C9, as it is stated, fails: every key of the raw map names a field and
    [UnexpectedDataError] is raised all the same, by the strict check of a
    nested data class on its own raw map. *)
Lemma nested_unexpected_data_counterexample :
  (∀ k, k ∈ dict_keys nested_data → k ∈ f_name <$> dc_fields X_nested) ∧
  dacite_from_dict nested_runtime (with_strict true default_config) 2 X_nested nested_data
    = Raise (UnexpectedDataError {["z"]}).
Proof.
  split; [|by vm_compute].
  intros k Hk. apply list_elem_of_singleton in Hk as ->. compute_done.
Qed.

Lemma path_resolved_field_is_not_verified_witness :
  resolve_field plain_runtime (paths_config "X" [("i", PathStr "n")])
    (_build_value plain_runtime (paths_config "X" [("i", PathStr "n")]) 2)
    X_int [("n", VStr "oops")] (required "i" int)
    = Ok (Some (VStr "oops")) ∧
  resolve_field plain_runtime (paths_config "X" [("u", PathStr "n")])
    (_build_value plain_runtime (paths_config "X" [("u", PathStr "n")]) 2)
    X_union [("n", VFloat 0)] (required "u" (TUnion [int; str]))
    = Raise (UnionMatchError None (TUnion [int; str]) (VFloat 0)).
Proof.
  split.
  - apply (proj1 (path_resolved_field_is_not_verified plain_runtime
             (paths_config "X" [("i", PathStr "n")])
             (_build_value plain_runtime (paths_config "X" [("i", PathStr "n")]) 2)
             X_int [("n", VStr "oops")] (required "i" int) (PathStr "n")
             (VExc (DefaultValueNotFoundError
                      (Some (PathStr "n", [("n", VStr "oops")]))))
             (VStr "oops") eq_refl eq_refl eq_refl eq_refl)).
    reflexivity.
  - apply (proj2 (path_resolved_field_is_not_verified plain_runtime
             (paths_config "X" [("u", PathStr "n")])
             (_build_value plain_runtime (paths_config "X" [("u", PathStr "n")]) 2)
             X_union [("n", VFloat 0)] (required "u" (TUnion [int; str])) (PathStr "n")
             (VExc (DefaultValueNotFoundError
                      (Some (PathStr "n", [("n", VFloat 0)]))))
             (VFloat 0) eq_refl eq_refl eq_refl eq_refl)).
    reflexivity.
Defined.



Lemma list_field_first_element_rule_witness :
  resolve_field plain_runtime default_config (_build_value plain_runtime default_config 2)
    (X_list bool_) [("l", VList [VInt 1])] (required "l" (List bool_))
    = Ok (Some (VList [VInt 1])) ∧
  resolve_field plain_runtime default_config (_build_value plain_runtime default_config 2)
    (X_list int) [("l", VList [VBool true])] (required "l" (List int))
    = Raise (WrongTypeError (Some "l") (List int) (VList [VBool true])).
Proof.
  split.
  - exact (proj1 (list_field_first_element_rule plain_runtime default_config
             (_build_value plain_runtime default_config 2) (X_list bool_)
             [("l", VList [VInt 1])] (required "l" (List bool_)) CBool
             (VList [VInt 1]) (VList [VInt 1]) eq_refl eq_refl eq_refl eq_refl eq_refl)).
  - exact (proj1 (list_field_first_element_rule plain_runtime default_config
             (_build_value plain_runtime default_config 2) (X_list int)
             [("l", VList [VBool true])] (required "l" (List int)) CInt
             (VList [VBool true]) (VList [VBool true])
             eq_refl eq_refl eq_refl eq_refl eq_refl)).
Defined.

(** C5, as it is stated, fails: a [List[int]] field holding [[True]] is
    rejected although [bool] is a subclass of [int], and a [List[bool]] field
    holding [[1]] is accepted although [int] is not a subclass of [bool]. *)
Lemma list_field_counterexample :
  class_issubclass plain_runtime CBool CInt = true ∧
  class_issubclass plain_runtime CInt CBool = false ∧
  dacite_from_dict plain_runtime default_config 2 (X_list int) [("l", VList [VBool true])]
    = Raise (WrongTypeError (Some "l") (List int) (VList [VBool true])) ∧
  dacite_from_dict plain_runtime default_config 2 (X_list bool_) [("l", VList [VInt 1])]
    = Ok (VInst "X" [("l", VList [VInt 1])]).
Proof.
  repeat split.
Qed.

(** ** The test suite, evaluated on the model *)

(** [test_has] and [test_get] of [tests/test_dataclasses.py]. *)
Example test_has :
  has "a" [("a", VStr "foo")] = Ok true ∧
  has "a.b" [("a", VDict [("b", VInt 2)])] = Ok true ∧
  has "x_renamed.deep.deeper"
    [("i_renamed", VInt 0);
     ("x_renamed", VDict [("deep", VDict [("deeper", VStr "mystring")])])] = Ok true ∧
  has "b" [("a", VInt 1)] = Ok false ∧
  has "a.b.c" [("a", VDict [("b", VInt 2)])] = Ok false ∧
  has "a.c" [("a", VDict [("b", VInt 2)])] = Ok false ∧
  has "b.c.d" [("a", VInt 1)] = Ok false.
Proof.
  repeat split.
Qed.

Example test_get :
  get "a" [("a", VDict [("b", VInt 2)])] (VExc (KeyError None))
    = Ok (VDict [("b", VInt 2)]) ∧
  get "x_renamed.deep.deeper"
    [("i_renamed", VInt 0);
     ("x_renamed", VDict [("deep", VDict [("deeper", VStr "mystring")])])]
    (VExc (KeyError None)) = Ok (VStr "mystring") ∧
  get "b" [("a", VInt 1)] (VExc (KeyError None)) = Raise (KeyError None) ∧
  get "a.c" [("a", VDict [("b", VInt 2)])] (VExc (KeyError None)) = Raise (KeyError None) ∧
  get "b.c.d" [("a", VDict [("b", VInt 2)])] (VExc (ValueError "foo"))
    = Raise (ValueError "foo") ∧
  get "b.c.d" [("a", VDict [("b", VInt 2)])] (VStr "foo") = Ok (VStr "foo").
Proof.
  repeat split.
Qed.

(** [test_from_dict_with_paths] and [test_from_dict_with_multiple_paths]. *)
Example test_from_dict_with_paths :
  dacite_from_dict plain_runtime (paths_config "X1" [("s2", PathStr "foo")]) 1 X1
    [("s1", VStr "same_name"); ("foo", VStr "diff_name")]
    = Ok (VInst "X1" [("s1", VStr "same_name"); ("s2", VStr "diff_name")]) ∧
  dacite_from_dict plain_runtime (paths_config "X1" [("s2", PathStr "foo.bar")]) 1 X1
    [("s1", VStr "same_name"); ("foo", VDict [("bar", VStr "diff_name")])]
    = Ok (VInst "X1" [("s1", VStr "same_name"); ("s2", VStr "diff_name")]) ∧
  dacite_from_dict plain_runtime (paths_config "X1" [("s2", PathStr "foo.bar")]) 1 X1
    [("s1", VStr "same_name"); ("foo", VDict [])]
    = Ok (VInst "X1" [("s1", VStr "same_name"); ("s2", VStr "default")]) ∧
  dacite_from_dict plain_runtime (paths_config "X1" [("s2", PathStr "foo.bar")]) 1 X1
    [("s1_hideme", VStr "same_name"); ("foo", VDict [])]
    = Ok (VInst "X1" [("s1", VNone); ("s2", VStr "default")]).
Proof.
  repeat split.
Qed.

Example test_from_dict_with_multiple_paths :
  dacite_from_dict plain_runtime
    (paths_config "X" [("a", PathList ["str"; "foo.bar"]); ("b", PathList ["baz.blat"; "int"])])
    1 X_a_b [("str", VStr "val"); ("int", VInt (-1))]
    = Ok (VInst "X" [("a", VStr "val"); ("b", VInt (-1))]).
Proof.
  reflexivity.
Qed.

(** [test_from_dict_with_type_hooks] and [test_from_dict_with_type_hooks_and_union]. *)
Example test_from_dict_with_type_hooks :
  dacite_from_dict plain_runtime lower_hook_config 1 X_str [("s", VStr "TEST")]
    = Ok (VInst "X" [("s", VStr "test")]) ∧
  dacite_from_dict plain_runtime lower_hook_config 2 X_str_or_int [("s", VStr "TEST")]
    = Ok (VInst "X" [("s", VStr "test")]).
Proof.
  repeat split.
Qed.

(** [test_form_dict_with_disabled_type_checking], with and without a union. *)
Example test_form_dict_with_disabled_type_checking :
  dacite_from_dict plain_runtime unchecked_config 1 X_int [("i", VStr "test")]
    = Ok (VInst "X" [("i", VStr "test")]) ∧
  dacite_from_dict plain_runtime unchecked_config 2 X_int_or_float [("i", VStr "test")]
    = Ok (VInst "X" [("i", VStr "test")]).
Proof.
  repeat split.
Qed.

(** [test_from_dict_with_strict_unions_match_and_ambiguous_match] and
    [..._and_single_match]. *)
Example test_from_dict_with_strict_unions_match :
  dacite_from_dict ambiguous_runtime strict_unions_config 3 Z_union
    [("u", VDict [("i", VInt 1)])]
    = Raise (StrictUnionMatchError (Some "u")
               [(TClass (CUser "X"), VInst "X" [("i", VInt 1)]);
                (TClass (CUser "Y"), VInst "Y" [("i", VInt 1)])]) ∧
  dacite_from_dict single_runtime strict_unions_config 3 Z_union
    [("u", VDict [("f", VInt 1)])]
    = Ok (VInst "Z" [("u", VInst "Y" [("f", VInt 1)])]).
Proof.
  repeat split.
Qed.

(** [test_allow_superclasses] and [test_allow_superclasses_with_generics_1];
    the [UnionMatchError] of the third case is the [WrongTypeError] the test
    expects, of which it is a subclass. *)
Example test_allow_superclasses :
  dacite_from_dict car_runtime default_config 1 Dealership [("brand", VStr "bmw")]
    = Raise (WrongTypeError (Some "brand") CarCompany (VStr "bmw")) ∧
  dacite_from_dict car_runtime allow_superclasses_config 1 Dealership [("brand", VStr "bmw")]
    = Ok (VInst "Dealership" [("brand", VStr "bmw")]) ∧
  dacite_from_dict car_runtime default_config 2 Dealership2 [("brand", VStr "bmw")]
    = Raise (UnionMatchError (Some "brand") (TUnion [CarCompany; int]) (VStr "bmw")) ∧
  dacite_from_dict car_runtime allow_superclasses_config 2 Dealership2 [("brand", VStr "bmw")]
    = Ok (VInst "Dealership2" [("brand", VStr "bmw")]) ∧
  dacite_from_dict car_runtime default_config 2 Dealership3
    [("brands", VList [VStr "bmw"; VStr "yugo"])]
    = Ok (VInst "Dealership3" [("brands", VList [VStr "bmw"; VStr "yugo"])]).
Proof.
  repeat split.
Qed.

(** * Further properties of the engine *)

(** ** The path navigator *)

Lemma _has_true_iff p d :
  _has p d = Ok true ↔
  ∃ pre last d' v, p = pre ++ [last] ∧ descend pre d = Some d' ∧ dict_get last d' = Some v.
Proof.
  revert d. induction p as [|k p IH]; intros d.
  - split; [done|]. intros (pre & last & _ & _ & H & _). by destruct pre.
  - destruct p as [|k' p].
    + simpl. unfold dict_has. split.
      * destruct (dict_get k d) as [v|] eqn:E; [|done]. intros _.
        exists [], k, d, v. done.
      * intros (pre & last & d' & v & Hp & Hd & Hv).
        destruct pre as [|? [|? ?]]; try done.
        injection Hp as ->. injection Hd as ->. by rewrite Hv.
    + rewrite _has_cons by done. split.
      * destruct (dict_get k d) as [[]|] eqn:E; try done.
        intros (pre & last & d' & v & Hp & Hd & Hv)%IH.
        exists (k :: pre), last, d', v. rewrite Hp. simpl. by rewrite E.
      * intros (pre & last & d' & v & Hp & Hd & Hv).
        destruct pre as [|k0 pre]; [by destruct p|].
        injection Hp as -> Hp. simpl in Hd.
        destruct (dict_get k0 d) as [[]|] eqn:E; try done.
        apply IH. by exists pre, last, d', v.
Qed.

Lemma _has_never_raises p d : p ≠ [] → ∃ b, _has p d = Ok b.
Proof.
  revert d. induction p as [|k p IH]; intros d Hp; [done|].
  destruct p as [|k' p]; [by eexists|].
  rewrite _has_cons by done.
  destruct (dict_get k d) as [[]|]; try by eexists. by apply IH.
Qed.

(** X1: [has] never raises, and it answers [True] exactly when the path
    resolves in the data, which is exactly when [get] returns the value at
    the path whatever default it is given. *)
Theorem has_iff_get_resolves (path : string) (data : dict) :
  (∃ b, has path data = Ok b) ∧
  (has path data = Ok true ↔ ∃ v, resolves_to path data v) ∧
  (∀ v, resolves_to path data v → ∀ default, get path data default = Ok v) ∧
  (has path data = Ok false → ∀ e, ∃ e', get path data (VExc e) = Raise e').
Proof.
  split; [apply _has_never_raises, split_on_nonempty|]. split; [|split].
  - unfold has, resolves_to. rewrite _has_true_iff. split.
    + intros (pre & last & d & v & ?). by exists v, pre, last, d.
    + intros (v & pre & last & d & ?). by exists pre, last, d, v.
  - intros v (pre & last & d & Hp & Hd & Hv) default.
    unfold get. rewrite Hp, (_get_descend _ _ _ d) by done. simpl. by rewrite Hv.
  - intros Hfalse e. apply _has_false_get. unfold has in Hfalse. by rewrite Hfalse.
Qed.

Lemma has_iff_get_resolves_witness :
  get "a.b" [("a", VDict [("b", VInt 2)])] (VStr "unused") = Ok (VInt 2).
Proof.
  apply (proj1 (proj2 (proj2 (has_iff_get_resolves "a.b" [("a", VDict [("b", VInt 2)])])))).
  by exists ["a"], "b", [("b", VInt 2)].
Defined.

Lemma _get_raise_cases p d default e :
  p ≠ [] → _get p d default = Raise e →
  default = VExc e ∨
  ∃ k, k ∈ p ∧ e = KeyError (Some ("element is not a dict: " +:+ k)).
Proof.
  revert d. induction p as [|k p IH]; intros d Hp; [done|].
  assert (Hdef : raise_or_return default = Raise e → default = VExc e)
    by (destruct default; simpl; congruence).
  destruct p as [|k' p].
  - simpl. destruct (dict_get k d); [done|]. intros H. left. by apply Hdef.
  - rewrite _get_cons by done.
    destruct (dict_get k d) as [v|] eqn:E; [|intros H; left; by apply Hdef].
    destruct v;
      try (intros [= <-]; right; exists k; split; [by left | done]).
    intros H. destruct (IH _ ltac:(done) H) as [? | (k0 & Hk0 & ->)]; [by left|].
    right. exists k0. split; [by right | done].
Qed.

Lemma _get_terminates p d default : _get p d default ≠ OutOfFuel.
Proof.
  revert d. induction p as [|k p IH]; intros d; [done|].
  assert (Hdef : raise_or_return default ≠ OutOfFuel) by (by destruct default).
  destruct p as [|k' p].
  - simpl. by destruct (dict_get k d).
  - rewrite _get_cons by done.
    destruct (dict_get k d) as [[]|]; first [done | apply IH].
Qed.

(** X2: the only exceptions [get] raises are the default itself, when it is
    an error value, and the [KeyError] that names a segment of the path which
    resolved to something that is not a map. *)
Theorem get_raises_only (path : string) (data : dict) (default : value) (e : exn) :
  get path data default = Raise e →
  default = VExc e ∨
  ∃ k, k ∈ split_dot path ∧ e = KeyError (Some ("element is not a dict: " +:+ k)).
Proof. apply _get_raise_cases, split_on_nonempty. Qed.

Lemma get_raises_only_witness :
  VStr "foo" = VExc (KeyError (Some "element is not a dict: b")) ∨
  ∃ k, k ∈ split_dot "a.b.c" ∧
       KeyError (Some "element is not a dict: b")
       = KeyError (Some ("element is not a dict: " +:+ k)).
Proof.
  exact (get_raises_only "a.b.c" [("a", VDict [("b", VInt 2)])] (VStr "foo")
           (KeyError (Some "element is not a dict: b")) eq_refl).
Defined.

(** ** Ordered-candidate resolution *)

Lemma try_paths_returns data paths r :
  try_paths data paths = Some r → ∃ v, r = Ok v.
Proof.
  induction paths as [|p paths IH]; simpl; [done|].
  destruct (get p data (VExc (KeyError None))) as [v| |] eqn:E.
  - intros [= <-]. by exists v.
  - apply IH.
  - by destruct (_get_terminates (split_dot p) data (VExc (KeyError None))).
Qed.

(** X3: with a list of candidate paths, [_get_deep_value] raises nothing
    but the default: a candidate that runs into a value that is not a map is
    passed over like a missing one, so with a default that is no error value
    a value is always returned. *)
Theorem get_deep_value_list_raises_only_default (data : dict) (paths : list string)
    (default : value) :
  (∀ e, _get_deep_value data (PathList paths) default = Raise e → default = VExc e) ∧
  ((∀ e, default ≠ VExc e) → ∃ v, _get_deep_value data (PathList paths) default = Ok v).
Proof.
  simpl. destruct (try_paths data paths) as [r|] eqn:E.
  - destruct (try_paths_returns _ _ _ E) as [v ->]. split; [done | by eexists].
  - split.
    + intros e. destruct default; simpl; congruence.
    + intros Hdef. destruct default; simpl; try by eexists. by destruct (Hdef e).
Qed.

Lemma get_deep_value_list_raises_only_default_witness :
  (∃ v, _get_deep_value [("a", VInt 1)] (PathList ["a.b"; "c"]) (VStr "none") = Ok v) ∧
  get "a.b" [("a", VInt 1)] (VStr "none") = Raise (KeyError (Some "element is not a dict: a")).
Proof.
  split; [|reflexivity].
  apply (proj2 (get_deep_value_list_raises_only_default [("a", VInt 1)]
                  ["a.b"; "c"] (VStr "none"))).
  intros e. discriminate.
Defined.

(** ** The union resolver *)

Section UnionMore.
Context (rt : Runtime) (config : Config) (build : ty → value → result value).

Lemma union_loop_skip before rest data union_matches :
  (∀ t, t ∈ before →
     (∃ e, build t data = Raise e) ∨
     (∃ v, build t data = Ok v ∧ union_accepts rt config t v = Ok false)) →
  union_loop rt config build (before ++ rest) data union_matches
  = union_loop rt config build rest data union_matches.
Proof.
  induction before as [|t before IH]; intros H; [done|]. simpl.
  destruct (H t) as [[e ->] | [v [-> ->]]]; [by left | | ];
    apply IH; intros t' Ht'; apply H; by right.
Qed.

(** X4: outside strict mode the members of a union are tried in declaration
    order and the value of the first accepted member is returned, whatever
    the members after it would give; when no member is accepted the raw value
    is returned unchanged if [check_types] is off, and [UnionMatchError] is
    raised with the union and the raw value if it is on. *)
Theorem union_declaration_order_decides (union : ty) (data : value) :
  strict_unions_match config = false →
  is_optional union && bool_decide (length (extract_generic union []) = 2) = false →
  (∀ before t after v,
     extract_generic union [] = before ++ t :: after →
     (∀ t', t' ∈ before →
        (∃ e, build t' data = Raise e) ∨
        (∃ v', build t' data = Ok v' ∧ union_accepts rt config t' v' = Ok false)) →
     build t data = Ok v → union_accepts rt config t v = Ok true →
     _build_value_for_union rt config build union data = Ok v) ∧
  ((∀ t, t ∈ extract_generic union [] →
      (∃ e, build t data = Raise e) ∨
      (∃ v, build t data = Ok v ∧ union_accepts rt config t v = Ok false)) →
   _build_value_for_union rt config build union data
   = if check_types config then Raise (UnionMatchError None union data) else Ok data).
Proof.
  intros Hstrict Hgeneral. unfold _build_value_for_union. rewrite Hgeneral. split.
  - intros before t after v -> Hbefore Hv Hacc.
    rewrite union_loop_skip by done. simpl. by rewrite Hv, Hacc, Hstrict.
  - intros Hnone. rewrite union_loop_no_candidate by done. simpl.
    rewrite Hstrict. by destruct (check_types config).
Qed.

Lemma union_loop_strict types data union_matches :
  strict_unions_match config = true →
  (∀ t, t ∈ types → settled_member rt config build data t) →
  union_loop rt config build types data union_matches
  = Ok (inr (union_matches ++ omap (accepted_member rt config build data) types)).
Proof.
  intros Hstrict. revert union_matches.
  induction types as [|t types IH]; intros acc H; simpl.
  - by rewrite app_nil_r.
  - unfold accepted_member at 1.
    destruct (H t) as [[e He] | (v & b & Hv & Hb)]; [by left | | ].
    + rewrite He. apply IH. intros t' Ht'. apply H. by right.
    + rewrite Hv, Hb. destruct b.
      * rewrite Hstrict, IH, <- app_assoc; [done|]. intros t' Ht'. apply H. by right.
      * apply IH. intros t' Ht'. apply H. by right.
Qed.

(** X5: in strict mode every member of the union is tried; when exactly one
    is accepted its value is returned, and when several are accepted
    [StrictUnionMatchError] is raised with all the accepted members and their
    values, in declaration order. *)
Theorem strict_union_needs_exactly_one (union : ty) (data : value) :
  strict_unions_match config = true →
  is_optional union && bool_decide (length (extract_generic union []) = 2) = false →
  (∀ t, t ∈ extract_generic union [] → settled_member rt config build data t) →
  _build_value_for_union rt config build union data =
    match omap (accepted_member rt config build data) (extract_generic union []) with
    | [] => Raise (KeyError (Some "popitem(): dictionary is empty"))
    | [(_, v)] => Ok v
    | union_matches => Raise (StrictUnionMatchError None union_matches)
    end.
Proof.
  intros Hstrict Hgeneral Hsettled. unfold _build_value_for_union.
  rewrite Hgeneral, union_loop_strict by done. simpl. rewrite Hstrict.
  destruct (omap _ _) as [|[t v] [|m ms]]; done.
Qed.

End UnionMore.

Lemma union_declaration_order_decides_witness :
  _build_value plain_runtime default_config 2 bool_or_int (VBool true) = Ok (VBool true) ∧
  _build_value plain_runtime default_config 2 int_or_str (VFloat 0)
    = Raise (UnionMatchError None int_or_str (VFloat 0)).
Proof.
  split.
  - apply (proj1 (union_declaration_order_decides plain_runtime default_config
             (_build_value plain_runtime default_config 1) bool_or_int (VBool true)
             eq_refl eq_refl) [] bool_ [int] (VBool true) eq_refl).
    + intros t Ht. by apply elem_of_nil in Ht.
    + reflexivity.
    + reflexivity.
  - apply (proj2 (union_declaration_order_decides plain_runtime default_config
             (_build_value plain_runtime default_config 1) int_or_str (VFloat 0)
             eq_refl eq_refl)).
    intros t Ht. right. exists (VFloat 0).
    apply elem_of_cons in Ht as [-> | Ht]; [by vm_compute|].
    apply list_elem_of_singleton in Ht as ->. by vm_compute.
Defined.

Lemma strict_union_needs_exactly_one_witness :
  _build_value plain_runtime strict_unions_config 2 bool_or_int (VBool true)
    = Raise (StrictUnionMatchError None [(bool_, VBool true); (int, VBool true)]) ∧
  _build_value plain_runtime strict_unions_config 2 int_or_str (VInt 7) = Ok (VInt 7).
Proof.
  split.
  - apply (strict_union_needs_exactly_one plain_runtime strict_unions_config
             (_build_value plain_runtime strict_unions_config 1) bool_or_int (VBool true)
             eq_refl eq_refl).
    intros t Ht. right. exists (VBool true), true.
    apply elem_of_cons in Ht as [-> | Ht]; [by vm_compute|].
    apply list_elem_of_singleton in Ht as ->. by vm_compute.
  - apply (strict_union_needs_exactly_one plain_runtime strict_unions_config
             (_build_value plain_runtime strict_unions_config 1) int_or_str (VInt 7)
             eq_refl eq_refl).
    intros t Ht. right.
    apply elem_of_cons in Ht as [-> | Ht]; [exists (VInt 7), true; by vm_compute|].
    apply list_elem_of_singleton in Ht as ->. exists (VInt 7), false. by vm_compute.
Defined.

(** ** The collection reconstructor *)

Lemma zip_longest_length items ts :
  length (zip_longest items ts) = length items `max` length ts.
Proof.
  revert ts. induction items as [|item items IH]; intros [|t ts]; simpl.
  all: rewrite ?length_fmap, ?IH; simpl; lia.
Qed.

Lemma zip_longest_same_length items ts :
  length items = length ts → zip_longest items ts = zip items ts.
Proof.
  revert ts. induction items as [|item items IH]; intros [|t ts]; simpl; try done.
  intros [= H]. by rewrite IH.
Qed.

Lemma zip_longest_padded items ts : zip_longest items ts = padded_pairs items ts.
Proof.
  unfold padded_pairs. revert ts.
  induction items as [|item items IH]; intros [|t ts]; simpl; try done.
  - rewrite IH. f_equal. by destruct items.
  - by rewrite IH.
Qed.

Lemma mapM_length {A B} (f : A → result B) l l' :
  mapM f l = Ok l' → length l' = length l.
Proof. intros H%mapM_Forall2. symmetry. by eapply Forall2_length. Qed.

Section CollectionMore.
Context (rt : Runtime) (build : ty → value → result value).

(** X7: a raw string given to a generic collection target is not rebuilt
    and not returned either: its class [str] is called on the generator of
    the rebuilt characters, which gives the text of the generator object and
    builds no element. *)
Theorem collection_of_raw_string (collection : ty) (s : string) :
  is_generic_collection rt collection = true →
  _build_value_for_collection rt build collection (VStr s) = Ok (VStr (generator_repr rt)).
Proof.
  intros H. unfold _build_value_for_collection. simpl.
  assert (Hsub : is_subclass rt collection CCollection = true).
  { unfold is_subclass. rewrite H. by destruct collection. }
  rewrite Hsub. by destruct collection as [| |[|]|? [|]| | |].
Qed.

(** X8: for a [Dict[K, V]] target and a raw dictionary, the result is a
    dictionary with the same keys in the same order, every value rebuilt
    against [V]; the keys are not rebuilt.  It is returned whenever every
    value builds. *)
Theorem mapping_keeps_keys_and_order (k v : ty) (entries : dict) :
  (∀ out, _build_value_for_collection rt build (Dict k v) (VDict entries) = Ok out →
     ∃ entries', out = VDict entries' ∧ entries'.*1 = entries.*1 ∧
       Forall2 (fun raw built => build v raw = Ok built) entries.*2 entries'.*2) ∧
  (∀ values, Forall2 (fun raw built => build v raw = Ok built) entries.*2 values →
     _build_value_for_collection rt build (Dict k v) (VDict entries)
     = Ok (VDict (zip entries.*1 values))).
Proof.
  assert (Heq : _build_value_for_collection rt build (Dict k v) (VDict entries)
    = (built <- mapM (fun kv => b <- build v kv.2 ;; Ok (kv.1, b)) entries ;;
       Ok (VDict built))) by done.
  rewrite Heq. clear Heq. split.
  - intros out. destruct (mapM _ entries) as [built| |] eqn:E; simpl; try done.
    intros [= <-]. exists built. split; [done|].
    apply mapM_Forall2 in E. clear -E.
    induction E as [|[k0 raw] [k1 b] entries built H _ IH]; [done|].
    simpl in H. destruct (build v raw) as [b'| |] eqn:Hb; simpl in H; try done.
    injection H as <- <-. destruct IH as [IH1 IH2]. split.
    + simpl. f_equal. exact IH1.
    + simpl. by constructor.
  - intros values H.
    assert (E : mapM (fun kv => b <- build v kv.2 ;; Ok (kv.1, b)) entries
                = Ok (zip entries.*1 values)).
    { revert values H. induction entries as [|[k0 raw] entries IH]; intros values H.
      - by inversion H.
      - inversion H as [|? b ? values' Hb Hrest]; subst. simpl in *.
        rewrite Hb. simpl. by rewrite (IH _ Hrest). }
    by rewrite E.
Qed.

(** X9: for a tuple target and a raw tuple, an empty tuple gives an empty
    tuple whatever the declared types; [Tuple[T, ...]] rebuilds every element
    against [T]; otherwise the elements are rebuilt against the declared types
    position by position, a raw element beyond the declared types being
    built against [None] in place of a type and a declared type beyond the raw
    elements being given [None] to build: when all these builds return, the
    result is the tuple of what they return, one element for every position
    of the longer side, and no other result is possible.  Built against
    [None] in place of a type, with no hook registered for it and no cast
    target that applies, a value is returned unchanged. *)
Theorem tuple_reconstruction (ts : list ty) (items : list value) :
  _build_value_for_collection rt build (Tuple ts) (VTuple []) = Ok (VTuple []) ∧
  (∀ t built, ts = [t; TEllipsis] → items ≠ [] →
     Forall2 (fun item b => build t item = Ok b) items built →
     _build_value_for_collection rt build (Tuple ts) (VTuple items) = Ok (VTuple built)) ∧
  (∀ built, (∀ t, ts ≠ [t; TEllipsis]) → items ≠ [] → length items = length ts →
     Forall2 (fun p b => build p.2 p.1 = Ok b) (zip items ts) built →
     _build_value_for_collection rt build (Tuple ts) (VTuple items) = Ok (VTuple built)) ∧
  (∀ built, (∀ t, ts ≠ [t; TEllipsis]) → items ≠ [] →
     Forall2 (fun p b => build p.2 p.1 = Ok b) (padded_pairs items ts) built →
     _build_value_for_collection rt build (Tuple ts) (VTuple items) = Ok (VTuple built)) ∧
  (∀ out, (∀ t, ts ≠ [t; TEllipsis]) → items ≠ [] →
     _build_value_for_collection rt build (Tuple ts) (VTuple items) = Ok out →
     ∃ built, out = VTuple built ∧
       Forall2 (fun p b => build p.2 p.1 = Ok b) (padded_pairs items ts) built ∧
       length built = length items `max` length ts) ∧
  (∀ config n item,
     type_hooks config TNoneValue = None →
     existsb (is_subclass rt TNoneValue) (cast config) = false →
     _build_value rt config (S n) TNoneValue item = Ok item).
Proof.
  assert (Hgen : (∀ t, ts ≠ [t; TEllipsis]) → items ≠ [] →
    _build_value_for_collection rt build (Tuple ts) (VTuple items)
    = (built <- mapM (fun p => build p.2 p.1) (zip_longest items ts) ;; Ok (VTuple built))).
  { intros Hts Hitems. destruct items as [|item items]; [done|].
    destruct ts as [|t1 [|t2 ts]]; try done.
    destruct t2; try done. destruct ts; [|done]. by destruct (Hts t1). }
  split; [done|]. split; [|split; [|split; [|split]]].
  - intros t built -> Hitems H%mapM_Forall2.
    destruct items as [|item items]; [done|].
    change (_build_value_for_collection rt build (Tuple [t; TEllipsis])
              (VTuple (item :: items)))
      with (b <- mapM (build t) (item :: items) ;; Ok (VTuple b)).
    by rewrite H.
  - intros built Hts Hitems Hlen H%mapM_Forall2.
    rewrite Hgen, zip_longest_same_length, H by done. done.
  - intros built Hts Hitems H. rewrite <- zip_longest_padded in H.
    apply mapM_Forall2 in H. by rewrite Hgen, H.
  - intros out Hts Hitems. rewrite Hgen by done.
    destruct (mapM _ _) as [built| |] eqn:E; simpl; try done.
    intros [= <-]. exists built. split; [done|]. split.
    + rewrite <- zip_longest_padded. by apply mapM_Forall2.
    + by rewrite (mapM_length _ _ _ E), zip_longest_length.
  - intros config n item Hhook Hcast. simpl. unfold build_value_body. simpl.
    rewrite Hhook, Hcast. simpl.
    by destruct (follow_type_hints config), item.
Qed.

(** X19: a raw list or tuple given to a [Dict[K, V]] target is not
    returned unchanged: it is rebuilt as a list or tuple, every element
    against the key type [K]. *)
Theorem mapping_target_rebuilds_sequence_against_key_type (k v : ty)
    (items built : list value) :
  Forall2 (fun item b => build k item = Ok b) items built →
  _build_value_for_collection rt build (Dict k v) (VList items) = Ok (VList built) ∧
  _build_value_for_collection rt build (Dict k v) (VTuple items) = Ok (VTuple built).
Proof.
  intros H%mapM_Forall2.
  change (_build_value_for_collection rt build (Dict k v) (VList items))
    with (b <- mapM (build k) items ;; Ok (VList b)).
  change (_build_value_for_collection rt build (Dict k v) (VTuple items))
    with (b <- mapM (build k) items ;; Ok (VTuple b)).
  by rewrite H.
Qed.

End CollectionMore.

Lemma mapping_target_rebuilds_sequence_against_key_type_witness :
  _build_value plain_runtime lower_hook_config 2 (Dict str int) (VList [VStr "A"; VStr "B"])
  = Ok (VList [VStr "a"; VStr "b"]).
Proof.
  refine (proj1 (mapping_target_rebuilds_sequence_against_key_type plain_runtime
            (_build_value plain_runtime lower_hook_config 1) str int
            [VStr "A"; VStr "B"] [VStr "a"; VStr "b"] _)).
  repeat constructor.
Defined.

Lemma collection_of_raw_string_witness :
  _build_value plain_runtime default_config 2 (List str) (VStr "ab")
    = Ok (VStr "<generator object>").
Proof.
  exact (collection_of_raw_string plain_runtime (_build_value plain_runtime default_config 1)
           (List str) "ab" eq_refl).
Defined.

Lemma mapping_keeps_keys_and_order_witness :
  _build_value plain_runtime lower_hook_config 2 (Dict str str)
    (VDict [("B", VStr "X"); ("A", VStr "Y")])
  = Ok (VDict [("B", VStr "x"); ("A", VStr "y")]).
Proof.
  refine (proj2 (mapping_keeps_keys_and_order plain_runtime
            (_build_value plain_runtime lower_hook_config 1) str str
            [("B", VStr "X"); ("A", VStr "Y")]) [VStr "x"; VStr "y"] _).
  repeat constructor.
Defined.

Lemma tuple_reconstruction_witness :
  _build_value plain_runtime default_config 2 (Tuple [int])
    (VTuple [VInt 1; VStr "extra"]) = Ok (VTuple [VInt 1; VStr "extra"]) ∧
  _build_value plain_runtime default_config 2 (Tuple [int; str])
    (VTuple [VInt 1]) = Ok (VTuple [VInt 1; VNone]) ∧
  _build_value plain_runtime lower_hook_config 2 (Tuple [str; TEllipsis])
    (VTuple [VStr "A"; VStr "B"; VStr "C"]) = Ok (VTuple [VStr "a"; VStr "b"; VStr "c"]).
Proof.
  split; [|split].
  - refine (proj1 (proj2 (proj2 (proj2 (tuple_reconstruction plain_runtime
              (_build_value plain_runtime default_config 1) [int]
              [VInt 1; VStr "extra"])))) [VInt 1; VStr "extra"] _ _ _); [done..|].
    repeat constructor.
  - refine (proj1 (proj2 (proj2 (proj2 (tuple_reconstruction plain_runtime
              (_build_value plain_runtime default_config 1) [int; str]
              [VInt 1])))) [VInt 1; VNone] _ _ _); [done..|].
    repeat constructor.
  - refine (proj1 (proj2 (tuple_reconstruction plain_runtime
              (_build_value plain_runtime lower_hook_config 1) [str; TEllipsis]
              [VStr "A"; VStr "B"; VStr "C"])) str _ eq_refl _ _); [done|].
    repeat constructor.
Defined.

(** ** The object assembler *)

Lemma dict_get_only_fields data_class data k :
  k ∈ f_name <$> dc_fields data_class →
  dict_get k (only_fields data_class data) = dict_get k data.
Proof.
  intros Hk. unfold only_fields. induction data as [|[k0 v0] data IH]; [done|].
  rewrite filter_cons. simpl. destruct (decide _) as [Hin|Hout]; simpl.
  - by rewrite IH.
  - destruct (String.eqb_spec k k0) as [-> | _]; [done | exact IH].
Qed.

Lemma foldl_orb b bs : foldl orb b bs = b || existsb id bs.
Proof.
  revert b. induction bs as [|b' bs IH]; intros b; simpl.
  - by rewrite orb_false_r.
  - by rewrite IH, orb_assoc.
Qed.

Section AssemblerMore.
Context (rt : Runtime) (config : Config) (build : ty → value → result value).

Lemma resolve_field_direct data_class data field raw v :
  registered_path config data_class field = None →
  dict_get (f_name field) data = Some raw →
  build (f_type field) raw = Ok v →
  resolve_field rt config build data_class data field
  = (_ <- check_field rt config field v ;; Ok (Some v)).
Proof.
  intros Hpath Hraw Hv. unfold resolve_field. by rewrite Hpath, Hraw, Hv.
Qed.

(** X10: a field whose name is no key of the raw map, and which has no
    registered path, takes its declared default, or the result of its default
    factory, as it is (the builder, and so every hook and cast, is left out);
    without either it takes [None] when its type is Optional; otherwise it
    is left unset when it is no argument of the constructor, and
    [MissingValueError] is raised with its name when it is one. *)
Theorem missing_key_takes_default (data_class : Dataclass) (data : dict) (field : Field) :
  registered_path config data_class field = None →
  dict_get (f_name field) data = None →
  (∀ v, f_default field = Some v →
     resolve_field rt config build data_class data field = Ok (Some v)) ∧
  (∀ v, f_default field = None → f_default_factory field = Some (Ok v) →
     resolve_field rt config build data_class data field = Ok (Some v)) ∧
  (f_default field = None → f_default_factory field = None →
     resolve_field rt config build data_class data field =
       if is_optional (f_type field) then Ok (Some VNone)
       else if f_init field then Raise (MissingValueError (Some (f_name field)))
       else Ok None).
Proof.
  intros Hpath Hkey. unfold resolve_field, get_default_value_for_field.
  rewrite Hpath, Hkey. split; [|split].
  - by intros v ->.
  - by intros v -> ->.
  - intros -> ->. destruct (is_optional (f_type field)); [done|].
    by destruct (f_init field).
Qed.

(** X11: outside strict mode, and for a data class without registered
    paths, the keys of the raw map that name no field are ignored: the outcome
    is that of the raw map without them. *)
Theorem unmatched_keys_are_ignored (data_class : Dataclass) (data : dict) :
  strict config = false →
  paths config !! dc_name data_class = None →
  from_dict rt config build data_class data
  = from_dict rt config build data_class (only_fields data_class data).
Proof.
  intros Hstrict Hpaths. unfold from_dict, strict_check. rewrite Hstrict. simpl.
  assert (Hfields : ∀ fields maps,
    (∀ f, f ∈ fields → f ∈ dc_fields data_class) →
    resolve_fields rt config build data_class data fields maps
    = resolve_fields rt config build data_class (only_fields data_class data) fields maps).
  { induction fields as [|f fields IH]; intros maps Hin; [done|]. simpl.
    assert (Hf : resolve_field rt config build data_class data f
                 = resolve_field rt config build data_class
                     (only_fields data_class data) f).
    { unfold resolve_field, registered_path. rewrite Hpaths. simpl.
      rewrite dict_get_only_fields; [done|].
      apply list_elem_of_fmap. exists f. split; [done|]. apply Hin. by left. }
    rewrite <- Hf. destruct (resolve_field rt config build data_class data f); simpl;
      [|done..].
    apply IH. intros f' Hf'. apply Hin. by right. }
  by rewrite Hfields.
Qed.

Lemma resolve_fields_routing data_class data fields maps0 maps :
  resolve_fields rt config build data_class data fields maps0 = Ok maps →
  (∀ k, dict_has k maps.1 = true →
     dict_has k maps0.1 = true ∨ ∃ f, f ∈ fields ∧ f_name f = k ∧ f_init f = true) ∧
  (∀ k, dict_has k maps.2 = true →
     dict_has k maps0.2 = true ∨
     ∃ f, f ∈ fields ∧ f_name f = k ∧ f_init f = false ∧ dc_frozen data_class = false).
Proof.
  revert maps0. induction fields as [|f fields IH]; intros maps0; simpl.
  - intros [= <-]. split; intros k Hk; by left.
  - destruct (resolve_field rt config build data_class data f) as [r| |]; simpl; try done.
    intros Hrest. destruct (IH _ Hrest) as [IH1 IH2]. clear IH.
    assert (Hmore : ∀ (P : Field → Prop) k,
      (∃ f', f' ∈ fields ∧ f_name f' = k ∧ P f') →
      ∃ f', f' ∈ f :: fields ∧ f_name f' = k ∧ P f').
    { intros P k (f' & Hin & Hrestf). exists f'. split; [by right | done]. }
    split; intros k Hk.
    + destruct (IH1 k Hk) as [Hin | Hex]; [|right; by apply (Hmore (fun f' => f_init f' = true))].
      destruct r as [v|]; [|by left]. unfold route in Hin.
      destruct (f_init f) eqn:Hinit; simpl in Hin.
      * apply dict_has_set in Hin as [-> | Hin]; [|by left].
        right. exists f. split; [by left | done].
      * left. by destruct (negb (dc_frozen data_class)).
    + destruct (IH2 k Hk) as [Hin | Hex];
        [|right; by apply (Hmore (fun f' => f_init f' = false ∧ dc_frozen data_class = false))].
      destruct r as [v|]; [|by left]. unfold route in Hin.
      destruct (f_init f) eqn:Hinit; simpl in Hin; [by left|].
      destruct (dc_frozen data_class) eqn:Hfrozen; simpl in Hin; [by left|].
      apply dict_has_set in Hin as [-> | Hin]; [|by left].
      right. exists f. split; [by left | done].
Qed.

(** X12: the values resolved for the fields are routed by [init]: the
    constructor is called with keywords that all name constructor fields of
    the data class, the values set after construction all belong to fields
    kept out of the constructor, and for a frozen data class nothing is set
    after construction, the values resolved for such fields being dropped. *)
Theorem resolved_values_are_routed_by_init (data_class : Dataclass) (data : dict)
    (maps : dict * dict) :
  resolve_fields rt config build data_class data (dc_fields data_class) ([], []) = Ok maps →
  (∀ k, dict_has k maps.1 = true →
     ∃ f, f ∈ dc_fields data_class ∧ f_name f = k ∧ f_init f = true) ∧
  (∀ k, dict_has k maps.2 = true →
     ∃ f, f ∈ dc_fields data_class ∧ f_name f = k ∧ f_init f = false) ∧
  (dc_frozen data_class = true → maps.2 = []).
Proof.
  intros H. destruct (resolve_fields_routing _ _ _ _ _ H) as [H1 H2].
  split; [|split].
  - intros k Hk. by destruct (H1 k Hk).
  - intros k Hk. destruct (H2 k Hk) as [? | (f & ? & ? & ? & ?)]; [done | by exists f].
  - intros Hfrozen. destruct maps.2 as [|[k v] rest] eqn:E; [done|].
    destruct (H2 k) as [? | (f & ? & ? & ? & ?)]; [|done|congruence].
    unfold dict_has. simpl. by rewrite String.eqb_refl.
Qed.

(** X13: for a field resolved through a list of candidate paths of which
    none resolves in the raw map, the default of the field (or [None] for an
    Optional type), when it is no error value, is handed to the builder like
    a raw value, and the field takes what the builder returns; without any
    default [DefaultValueNotFoundError] is raised, not [MissingValueError]. *)
Theorem unresolved_paths_fall_back_to_default (data_class : Dataclass) (data : dict)
    (field : Field) (candidates : list string) :
  registered_path config data_class field = Some (PathList candidates) →
  (∀ q, q ∈ candidates → has q data ≠ Ok true) →
  (∀ default v,
     get_default_value_for_field rt field (f_type field) = Ok default →
     (∀ e, default ≠ VExc e) →
     build (f_type field) default = Ok v →
     resolve_field rt config build data_class data field = Ok (Some v)) ∧
  (f_default field = None → f_default_factory field = None →
   is_optional (f_type field) = false →
   resolve_field rt config build data_class data field
   = Raise (DefaultValueNotFoundError (Some (PathList candidates, data)))).
Proof.
  intros Hpath Hnone.
  assert (Hdeep : ∀ default, _get_deep_value data (PathList candidates) default
                             = raise_or_return default).
  { intros default. simpl.
    by rewrite <- (app_nil_r candidates), try_paths_skip. }
  unfold resolve_field, path_fallback. rewrite Hpath. cbn -[_get_deep_value].
  split.
  - intros default v -> Hdefault Hv. cbn -[_get_deep_value]. rewrite Hdeep.
    destruct default; simpl; try by rewrite Hv. by destruct (Hdefault e).
  - intros Hd Hf Hopt. unfold get_default_value_for_field.
    rewrite Hd, Hf, Hopt. cbn -[_get_deep_value]. by rewrite Hdeep.
Qed.

(** X14: with [check_types] on, a directly keyed field whose declared type
    is a plain class [c] is accepted exactly when the built value is an
    instance of [c] for [is_instance], or, with [allow_superclasses], when [c]
    is the runtime class of the value or one of its subclasses; otherwise
    [WrongTypeError] is raised with the field, the class and the value. *)
Theorem plain_class_field_is_verified (data_class : Dataclass) (data : dict)
    (field : Field) (c : cls) (raw v : value) :
  check_types config = true →
  f_type field = TClass c →
  registered_path config data_class field = None →
  dict_get (f_name field) data = Some raw →
  build (TClass c) raw = Ok v →
  resolve_field rt config build data_class data field =
    if (allow_superclasses config && class_issubclass rt c (type_of v))
       || is_instance rt v (TClass c)
    then Ok (Some v)
    else Raise (WrongTypeError (Some (f_name field)) (TClass c) v).
Proof.
  intros Hcheck Htype Hpath Hraw Hv. rewrite <- Htype in Hv.
  rewrite (resolve_field_direct _ _ _ _ _ Hpath Hraw Hv).
  unfold check_field. rewrite Hcheck, Htype. simpl. rewrite andb_false_r. simpl.
  destruct (allow_superclasses config); simpl.
  - destruct (class_issubclass rt c (type_of v)); simpl; [done|].
    by destruct (is_instance rt v (TClass c)).
  - by destruct (is_instance rt v (TClass c)).
Qed.

(** X15: a directly keyed field declared with a parameterised generic other
    than a list ([Dict[K, V]], [Set[T]], [Tuple[...]]) is not verified at all:
    it takes whatever the builder returns, [check_types] or not. *)
Theorem other_generic_field_is_not_verified (data_class : Dataclass) (data : dict)
    (field : Field) (origin : cls) (args : list ty) (raw v : value) :
  f_type field = TGeneric origin args →
  origin ≠ CList →
  registered_path config data_class field = None →
  dict_get (f_name field) data = Some raw →
  build (f_type field) raw = Ok v →
  resolve_field rt config build data_class data field = Ok (Some v).
Proof.
  intros Htype Horigin Hpath Hraw Hv.
  rewrite (resolve_field_direct _ _ _ _ _ Hpath Hraw Hv).
  unfold check_field. rewrite Htype. simpl. rewrite andb_false_r.
  destruct (check_types config); simpl; [|done]. by destruct origin.
Qed.

(** X16: with [check_types] and [allow_superclasses] on, a directly keyed
    field declared as a union of classes is accepted exactly when one of
    these classes is the runtime class of the built value or a subclass of
    it; an instance of a proper subclass of a member, and of no superclass of
    one, is rejected with [WrongTypeError]. *)
Theorem union_field_with_allow_superclasses (data_class : Dataclass) (data : dict)
    (field : Field) (classes : list cls) (raw v : value) :
  check_types config = true →
  allow_superclasses config = true →
  f_type field = TUnion (TClass <$> classes) →
  classes ≠ [] →
  registered_path config data_class field = None →
  dict_get (f_name field) data = Some raw →
  build (f_type field) raw = Ok v →
  resolve_field rt config build data_class data field =
    if existsb (fun c => class_issubclass rt c (type_of v)) classes
    then Ok (Some v)
    else Raise (WrongTypeError (Some (f_name field)) (f_type field) v).
Proof.
  intros Hcheck Hallow Htype Hclasses Hpath Hraw Hv.
  rewrite (resolve_field_direct _ _ _ _ _ Hpath Hraw Hv).
  assert (Hmap : ∀ l, mapM (fun inner_type => issubclass rt inner_type (type_of v))
                        (TClass <$> l)
                      = Ok ((fun c => class_issubclass rt c (type_of v)) <$> l)).
  { induction l as [|c l IH]; [done|]. csimpl. by rewrite IH. }
  assert (Hex : ∀ l, existsb id ((fun c => class_issubclass rt c (type_of v)) <$> l)
                     = existsb (fun c => class_issubclass rt c (type_of v)) l).
  { induction l as [|c l IH]; [done|]. csimpl. by rewrite IH. }
  destruct classes as [|c classes]; [done|].
  unfold check_field. rewrite Hcheck, Hallow, Htype.
  change (extract_generic (TUnion (TClass <$> c :: classes)) [])
    with (TClass <$> c :: classes).
  cbn [negb andb is_union]. rewrite Hmap.
  csimpl. rewrite foldl_orb, Hex.
  by destruct (class_issubclass rt c (type_of v) || existsb _ classes).
Qed.

Lemma resolve_fields_all_ok data_class data fields maps :
  (∀ f, f ∈ fields → ∃ r, resolve_field rt config build data_class data f = Ok r) →
  ∃ maps', resolve_fields rt config build data_class data fields maps = Ok maps'.
Proof.
  revert maps. induction fields as [|f fields IH]; intros maps H; simpl; [by eexists|].
  destruct (H f) as [r ->]; [by left|]. simpl.
  apply IH. intros f' Hf'. apply H. by right.
Qed.

(** X20: the fields are resolved in declaration order and the first whose
    resolution raises decides the outcome of [from_dict]: once the strict
    check has passed and the fields before it have been resolved, its
    exception is raised, whatever the fields after it would do. *)
Theorem first_failing_field_decides (data_class : Dataclass) (data : dict)
    (before after : list Field) (field : Field) (e : exn) :
  dc_fields data_class = before ++ field :: after →
  strict_check config data_class data = Ok () →
  (∀ f, f ∈ before → ∃ r, resolve_field rt config build data_class data f = Ok r) →
  resolve_field rt config build data_class data field = Raise e →
  from_dict rt config build data_class data = Raise e.
Proof.
  intros Hfields Hstrict Hbefore Hfield.
  destruct (resolve_fields_all_ok data_class data before ([], []) Hbefore) as [maps Hmaps].
  by eapply from_dict_raises_at.
Qed.

End AssemblerMore.

Lemma missing_key_takes_default_witness :
  resolve_field plain_runtime default_config (_build_value plain_runtime default_config 1)
    X_str [("other", VInt 1)] (required "s" str) = Raise (MissingValueError (Some "s")) ∧
  resolve_field plain_runtime lower_hook_config (_build_value plain_runtime lower_hook_config 1)
    X_default [] (with_default "s" str (VStr "DEFAULT")) = Ok (Some (VStr "DEFAULT")).
Proof.
  split.
  - exact (proj2 (proj2 (missing_key_takes_default plain_runtime default_config
             (_build_value plain_runtime default_config 1) X_str [("other", VInt 1)]
             (required "s" str) eq_refl eq_refl)) eq_refl eq_refl).
  - exact (proj1 (missing_key_takes_default plain_runtime lower_hook_config
             (_build_value plain_runtime lower_hook_config 1) X_default []
             (with_default "s" str (VStr "DEFAULT")) eq_refl eq_refl)
             (VStr "DEFAULT") eq_refl).
Defined.

Lemma unmatched_keys_are_ignored_witness :
  dacite_from_dict plain_runtime default_config 1 X_str [("junk", VInt 1); ("s", VStr "a")]
  = dacite_from_dict plain_runtime default_config 1 X_str [("s", VStr "a")].
Proof.
  exact (unmatched_keys_are_ignored plain_runtime default_config
           (_build_value plain_runtime default_config 1) X_str
           [("junk", VInt 1); ("s", VStr "a")] eq_refl eq_refl).
Defined.

Lemma resolved_values_are_routed_by_init_witness :
  ∃ maps,
    resolve_fields plain_runtime default_config (_build_value plain_runtime default_config 1)
      (X_post true) [("s", VStr "a"); ("t", VInt 5)] (dc_fields (X_post true)) ([], [])
    = Ok maps ∧ maps.2 = [].
Proof.
  eexists. split; [reflexivity|].
  exact (proj2 (proj2 (resolved_values_are_routed_by_init plain_runtime default_config
           (_build_value plain_runtime default_config 1) (X_post true)
           [("s", VStr "a"); ("t", VInt 5)] _ eq_refl)) eq_refl).
Defined.

Lemma unresolved_paths_fall_back_to_default_witness :
  resolve_field plain_runtime lower_paths_config
    (_build_value plain_runtime lower_paths_config 1)
    X_default [("foo", VInt 1)] (with_default "s" str (VStr "DEFAULT"))
  = Ok (Some (VStr "default")).
Proof.
  apply (proj1 (unresolved_paths_fall_back_to_default plain_runtime lower_paths_config
           (_build_value plain_runtime lower_paths_config 1)
           X_default [("foo", VInt 1)] (with_default "s" str (VStr "DEFAULT"))
           ["foo.bar"; "baz"] eq_refl
           ltac:(intros q Hq; apply elem_of_cons in Hq as [-> | Hq];
                 [vm_compute; discriminate|];
                 apply list_elem_of_singleton in Hq as ->; vm_compute; discriminate))
         (VStr "DEFAULT") (VStr "default") eq_refl
         ltac:(intros e; discriminate) eq_refl).
Defined.

Lemma plain_class_field_is_verified_witness :
  resolve_field plain_runtime default_config (_build_value plain_runtime default_config 1)
    X_int [("i", VStr "1")] (required "i" int)
  = Raise (WrongTypeError (Some "i") int (VStr "1")).
Proof.
  exact (plain_class_field_is_verified plain_runtime default_config
           (_build_value plain_runtime default_config 1) X_int [("i", VStr "1")]
           (required "i" int) CInt (VStr "1") (VStr "1")
           eq_refl eq_refl eq_refl eq_refl eq_refl).
Defined.

Lemma other_generic_field_is_not_verified_witness :
  resolve_field plain_runtime default_config (_build_value plain_runtime default_config 2)
    (named "X" "d" (Dict str int)) [("d", VDict [("a", VStr "x")])]
    (required "d" (Dict str int))
  = Ok (Some (VDict [("a", VStr "x")])).
Proof.
  apply (other_generic_field_is_not_verified plain_runtime default_config
           (_build_value plain_runtime default_config 2)
           (named "X" "d" (Dict str int)) [("d", VDict [("a", VStr "x")])]
           (required "d" (Dict str int)) CDict [str; int]
           (VDict [("a", VStr "x")]) (VDict [("a", VStr "x")]) eq_refl);
    [discriminate | reflexivity..].
Defined.

Lemma union_field_with_allow_superclasses_witness :
  resolve_field plain_runtime allow_superclasses_config
    (_build_value plain_runtime allow_superclasses_config 2)
    (named "X" "u" int_or_str) [("u", VBool true)] (required "u" int_or_str)
  = Raise (WrongTypeError (Some "u") int_or_str (VBool true)).
Proof.
  apply (union_field_with_allow_superclasses plain_runtime allow_superclasses_config
           (_build_value plain_runtime allow_superclasses_config 2)
           (named "X" "u" int_or_str) [("u", VBool true)] (required "u" int_or_str)
           [CInt; CStr] (VBool true) (VBool true) eq_refl eq_refl eq_refl);
    [discriminate | reflexivity..].
Defined.

(** ** The value builder *)

(** X17: for a type [T] that is neither a union nor the null type (so
    that [Optional[T]] is the two-member union of [T] and the null type), when
    no hook is registered for [Optional[T]] itself and no cast target applies
    to it, building against [Optional[T]] returns [None] for [None], without
    building it against [T], and is building against [T] for every other raw
    value, with [strict_unions_match] or without. *)
Theorem optional_builds_as_its_member (rt : Runtime) (config : Config) (n : nat)
    (t : ty) (data : value) :
  is_union t = false →
  is_NoneType t = false →
  type_hooks config (Optional t) = None →
  existsb (is_subclass rt (Optional t)) (cast config) = false →
  _build_value rt config (S (S n)) (Optional t) data =
    if is_None data then Ok VNone else _build_value rt config (S n) t data.
Proof.
  intros _ _ Hhook Hcast.
  change (_build_value rt config (S (S n)) (Optional t) data)
    with (build_value_body rt config (_build_value rt config (S n)) (Optional t) data).
  generalize (_build_value rt config (S n)). intros build.
  unfold build_value_body.
  change (is_init_var (Optional t)) with false. cbv iota.
  rewrite Hhook, Hcast.
  assert (Hopt : is_optional (Optional t) = true).
  { unfold is_optional, Optional. simpl. by rewrite orb_true_r. }
  rewrite Hopt. destruct (is_None data) eqn:Hnone; [by destruct data|].
  unfold _build_value_for_union. rewrite Hopt. simpl.
  rewrite ?Hnone.
  destruct (build t data) as [v| |]; simpl; rewrite ?Hnone; try done.
  by destruct (follow_type_hints config), v.
Qed.

Lemma optional_builds_as_its_member_witness :
  _build_value plain_runtime strict_unions_config 2 (Optional int) (VStr "x")
  = _build_value plain_runtime strict_unions_config 1 int (VStr "x").
Proof.
  exact (optional_builds_as_its_member plain_runtime strict_unions_config 0 int (VStr "x")
           eq_refl eq_refl eq_refl eq_refl).
Defined.

(** X18: when no hook and no cast target applies to [int] (or [float]),
    building a raw string against it parses the string with [int] (or
    [float]) if [follow_type_hints] is on, a failure of the parse being
    raised as it is, and returns the string unchanged if it is off; a raw
    value that is not a string is returned unchanged either way. *)
Theorem follow_type_hints_parses_strings (rt : Runtime) (config : Config) (n : nat)
    (data : value) :
  type_hooks config int = None → type_hooks config float = None →
  existsb (is_subclass rt int) (cast config) = false →
  existsb (is_subclass rt float) (cast config) = false →
  _build_value rt config (S n) int data =
    match data with
    | VStr s => if follow_type_hints config then int_of_str rt s else Ok data
    | _ => Ok data
    end ∧
  _build_value rt config (S n) float data =
    match data with
    | VStr s => if follow_type_hints config then float_of_str rt s else Ok data
    | _ => Ok data
    end.
Proof.
  intros Hint Hfloat Hcint Hcfloat. simpl. unfold build_value_body. simpl.
  rewrite Hint, Hfloat, Hcint, Hcfloat. simpl.
  by destruct (follow_type_hints config), data.
Qed.

Lemma follow_type_hints_parses_strings_witness :
  _build_value digits_runtime follow_type_hints_config 1 int (VStr "42") = Ok (VInt 42) ∧
  _build_value digits_runtime default_config 1 int (VStr "42") = Ok (VStr "42").
Proof.
  split.
  - exact (proj1 (follow_type_hints_parses_strings digits_runtime follow_type_hints_config
             0 (VStr "42") eq_refl eq_refl eq_refl eq_refl)).
  - exact (proj1 (follow_type_hints_parses_strings digits_runtime default_config
             0 (VStr "42") eq_refl eq_refl eq_refl eq_refl)).
Defined.

Lemma first_failing_field_decides_witness :
  dacite_from_dict plain_runtime default_config 1 X_a_b [("a", VStr "x")]
  = Raise (MissingValueError (Some "b")).
Proof.
  apply (first_failing_field_decides plain_runtime default_config
           (_build_value plain_runtime default_config 1) X_a_b [("a", VStr "x")]
           [required "a" str] [] (required "b" int) (MissingValueError (Some "b"))
           eq_refl eq_refl); [|reflexivity].
  intros f Hf. apply list_elem_of_singleton in Hf as ->. by eexists.
Defined.
